(** * Loan Processing API: customer-id allocation, record creation and
      customer summary (src/main.py)

    The endpoints of [main.py] are embedded as functions over an explicit
    model of the SQLAlchemy session they receive.  Python values are
    modelled as follows:

    - [str] as [string]: a sequence of characters, each numbered by its
      code point, for the code points 0 to 255 (ASCII and the Latin-1
      supplement).  Lengths, slices and the [_] of [LIKE] count one
      character per element and comparisons go by code point.  A [str]
      with a character above U+00FF has no counterpart here, and
      [ascii_names] and [ascii_identifiers] confine a statement to
      stores whose text is ASCII;
    - [int] as [Z];
    - [float] as [spec_float] at binary64 ([prec = 53], [emax = 1024]),
      including signed zeros, infinities and NaN;
    - [date] as a year/month/day record ordered chronologically;
    - exceptions as values of [exn], threaded by a state-and-error monad
      in which the session survives a raised exception.

    The store is modelled by its committed tables, kept in store order,
    and by the rows a session has added but not committed.  Queries read
    the committed tables: equality filters compare strings exactly,
    [order_by] on a string column compares by character code, and
    [first()] takes the first row of the result.  Every write ([add],
    [commit], [refresh]) succeeds or raises as the environment of the
    request decides; a commit makes all pending rows visible at once. *)

From Stdlib Require Import ZArith List String Ascii Bool Lia QArith Qabs Lqa.
From Stdlib Require Import Permutation.
From Stdlib Require Import SpecFloat.
Import ListNotations.

Local Open Scope Z_scope.

(** ** Exceptions *)

Inductive exn : Type :=
| ValueError                                   (* int("x"), int(nan) *)
| OverflowError                                (* int(inf) *)
| AttributeError                               (* None.isoformat() *)
| SQLAlchemyError (msg : string)               (* a failed store write *)
| HTTPException (status_code : Z) (detail : string).

(** ** Python built-ins used by the endpoints *)

Module Py.

(** Characters that [int()] strips as surrounding white space: tab, line
    feed, vertical tab, form feed, carriage return and space, and among
    the characters from 128 to 255 the next-line control U+0085 and the
    no-break space U+00A0.  The separators 28 to 31 are not stripped:
    [int] of a string that starts with one of them raises. *)
Definition is_space (c : ascii) : bool :=
  let n := N_of_ascii c in
  (((9 <=? n) && (n <=? 13)) || (n =? 32) || (n =? 133) || (n =? 160))%N.

Definition is_digit (c : ascii) : bool :=
  let n := N_of_ascii c in ((48 <=? n) && (n <=? 57))%N.

Definition digit_val (c : ascii) : Z := Z.of_N (N_of_ascii c) - 48.

Definition digit_char (d : Z) : ascii := ascii_of_N (Z.to_N (d + 48)).

Fixpoint lstrip (l : list ascii) : list ascii :=
  match l with
  | c :: r => if is_space c then lstrip r else l
  | [] => []
  end.

Definition strip (l : list ascii) : list ascii :=
  rev (lstrip (rev (lstrip l))).

(** Decimal digits with single underscores allowed between digits.
    [need_digit] holds at the start and right after an underscore. *)
Fixpoint digits_value (acc : Z) (need_digit : bool) (l : list ascii)
  : option Z :=
  match l with
  | [] => if need_digit then None else Some acc
  | c :: r =>
      if is_digit c then digits_value (10 * acc + digit_val c) false r
      else if (c =? "_")%char
           then if need_digit then None else digits_value acc true r
           else None
  end.

(** [int(s)] for a string [s], base 10: white space is stripped on both
    sides, one sign may come first, and the rest is decimal digits with
    single underscores between them.  Below U+0100 the only decimal
    digits are ["0"] to ["9"]. *)
Definition int_of_str (s : string) : exn + Z :=
  let l := strip (list_ascii_of_string s) in
  let r :=
    match l with
    | c :: t =>
        if (c =? "-")%char then option_map Z.opp (digits_value 0 true t)
        else if (c =? "+")%char then digits_value 0 true t
        else digits_value 0 true l
    | [] => None
    end in
  match r with
  | Some z => inr z
  | None => inl ValueError
  end.

(** [s[n:]]: the string without its first [n] characters. *)
Fixpoint slice_from (n : nat) (s : string) : string :=
  match n, s with
  | O, _ => s
  | S n', String _ r => slice_from n' r
  | S _, EmptyString => EmptyString
  end.

(** Decimal digits of a non-negative integer, most significant first.
    The fuel is the bit length, which bounds the number of digits. *)
Fixpoint dec_digits_aux (fuel : nat) (n : Z) (acc : list ascii)
  : list ascii :=
  match fuel with
  | O => acc
  | S f =>
      let acc' := digit_char (n mod 10) :: acc in
      if n / 10 =? 0 then acc' else dec_digits_aux f (n / 10) acc'
  end.

Definition dec_digits (n : Z) : list ascii :=
  dec_digits_aux (S (Z.to_nat (Z.log2 n))) n [].

(** [format(n, "0{w}d")]: sign-aware zero padding to width [w]. *)
Definition format_0d (w : nat) (n : Z) : string :=
  let sign := if n <? 0 then ["-"%char] else [] in
  let ds := dec_digits (Z.abs n) in
  string_of_list_ascii
    (sign ++ repeat "0"%char (w - List.length sign - List.length ds)
          ++ ds)%list.

(** [str(n)] for an integer. *)
Definition str_of_int (n : Z) : string := format_0d 0 n.

(** [x or y] for an optional value whose present values are truthy. *)
Definition or_else {A} (x : option A) (y : A) : A :=
  match x with Some a => a | None => y end.

(** [x or 0] for an optional integer: [None] and [0] are both falsy. *)
Definition or_zero (x : option Z) : Z :=
  match x with Some n => n | None => 0 end.

(** Truthiness of an optional number. *)
Definition truthy (x : option Z) : bool :=
  match x with Some n => negb (n =? 0) | None => false end.

(** [a // b] is floor division. *)
Definition floordiv (a b : Z) : Z := a / b.

(** *** Floats *)

Definition float := spec_float.

Definition prec : Z := 53.
Definition emax : Z := 1024.

Definition is_float (x : float) : Prop := valid_binary prec emax x = true.

(** [int(x)] for a float [x]: truncation toward zero; infinities and
    NaN raise. *)
Definition int_of_float (x : float) : exn + Z :=
  match x with
  | S754_zero _ => inr 0
  | S754_infinity _ => inl OverflowError
  | S754_nan => inl ValueError
  | S754_finite s m e =>
      let a := match e with
               | Zneg k => Z.shiftr (Zpos m) (Zpos k)
               | _ => Z.shiftl (Zpos m) e
               end in
      inr (if s then - a else a)
  end.

(** [float(n)] for an integer [n]: the nearest binary64, ties to even.
    CPython raises [OverflowError] where this returns an infinity, that
    is from about [2^1024] in magnitude: no integer column of the store
    holds such a value, and [float(int(x))] of a float [x] is [x] or
    smaller in magnitude. *)
Definition float_of_int (n : Z) : float :=
  binary_normalize prec emax n 0 false.

(** The rational number denoted by a finite float (0 for the others). *)
Definition value (x : float) : Q :=
  match x with
  | S754_finite s m e =>
      let sm := if s then Zneg m else Zpos m in
      match e with
      | Zneg k => Qmake sm (2 ^ k)
      | _ => inject_Z (Z.shiftl sm e)
      end
  | _ => 0%Q
  end.

Definition is_finite (x : float) : bool :=
  match x with
  | S754_zero _ | S754_finite _ _ _ => true
  | _ => false
  end.

End Py.

(** ** Dates *)

Record date : Type := mkdate { year : Z; month : Z; day : Z }.

(** Chronological order, as compared by Python and by the store. *)
Definition date_leb (a b : date) : bool :=
  (year a <? year b)
  || ((year a =? year b)
      && ((month a <? month b)
          || ((month a =? month b) && (day a <=? day b)))).

(** [d.isoformat()] *)
Definition isoformat (d : date) : string :=
  (Py.format_0d 4 (year d) ++ "-" ++ Py.format_0d 2 (month d) ++ "-"
   ++ Py.format_0d 2 (day d))%string.


(** ** Stored records *)

(** Modelled from the spec: [models/database_models.py] is not part of the
    sources.  The columns are the ones [main.py] reads and writes; their
    types follow the data model (identifiers and labels are strings,
    monetary amounts are integer currency units, EMI, tenure and credit
    score are optional). *)
Module MasterCustomerData.
Record t : Type := mk {
  Customer_ID : string;
  Name : string;
  Fathers_Name : string;
  DOB : date;
  Age : Z;
  Gender : string;
  Marital_Status : string;
  Address : string;
  City : string;
  State : string;
  Pincode : Z;
  Mobile : Z;
  Alternate_Mobile : option Z;
  Email : string;
  Nationality : string;
  Customer_Since : option date
}.
End MasterCustomerData.

(** Modelled from the spec: the employment table of
    [models/database_models.py]. *)
Module EmploymentInfo.
Record t : Type := mk {
  Customer_ID : string;
  Designation : string;
  Monthly_Income : Z;
  Employment_Status : string;
  Income_Verification : string
}.
End EmploymentInfo.

(** Modelled from the spec: the loan table of
    [models/database_models.py]. *)
Module LoanInfo.
Record t : Type := mk {
  Customer_ID : string;
  Loan_Required : string;
  Loan_Amount : Z;
  Loan_Purpose : string;
  Application_Date : date;
  Loan_Status : string;
  Collateral_Required : string;
  EMI : option Z;
  Tenure_Months : option Z;
  Credit_Score : option Z
}.
End LoanInfo.

(** ** Request bodies (the pydantic models of main.py) *)

Module PersonalDetailsRequest.
Record t : Type := mk {
  name : string;
  fathers_name : string;
  dob : date;
  age : Z;
  gender : string;
  marital_status : string;
  address : string;
  city : string;
  state : string;
  pincode : Z;
  mobile : Z;
  alternate_mobile : option Z;
  email : string;
  nationality : string
}.
End PersonalDetailsRequest.

Module EmploymentDetailsRequest.
Record t : Type := mk {
  designation : string;
  monthly_income : Py.float
}.
End EmploymentDetailsRequest.

Module LoanApplicationRequest.
Record t : Type := mk {
  loan_amount : Py.float;
  loan_required : string;
  application_date : option date;
  loan_status : string
}.
(** A body that gives only the amount: the other fields take the
    defaults of the class. *)
Definition with_defaults (amount : Py.float) : t :=
  mk amount "Yes" None "PENDING".
End LoanApplicationRequest.

(** ** The session *)

Inductive row : Type :=
| CustomerRow (c : MasterCustomerData.t)
| EmploymentRow (e : EmploymentInfo.t)
| LoanRow (l : LoanInfo.t).

(** The committed tables, in store order, and the rows added to the
    session but not yet committed.  Only committed rows are visible to
    queries. *)
Record Session : Type := mkSession {
  customers : list MasterCustomerData.t;
  employment_rows : list EmploymentInfo.t;
  loan_rows : list LoanInfo.t;
  pending : list row
}.

(** What the environment decides for one request: the current date and
    whether each write of the session succeeds.  A failed write raises
    with the store's message. *)
Inductive outcome : Type := Succeeds | Fails (msg : string).

Record Env : Type := mkEnv {
  today : date;
  add_outcome : outcome;
  commit_outcome : outcome;
  refresh_outcome : outcome
}.

(** ** State and exceptions *)

Definition M (A : Type) : Type := Session -> (exn + A) * Session.

Definition ret {A} (a : A) : M A := fun s => (inr a, s).

Definition bind {A B} (m : M A) (k : A -> M B) : M B :=
  fun s => match m s with
           | (inr a, s') => k a s'
           | (inl e, s') => (inl e, s')
           end.

Definition raise {A} (e : exn) : M A := fun s => (inl e, s).

Definition lift {A} (r : exn + A) : M A := fun s => (r, s).

(** [try: body except Exception as e: handler e] *)
Definition try_except {A} (body : M A) (handler : exn -> M A) : M A :=
  fun s => match body s with
           | (inr a, s') => (inr a, s')
           | (inl e, s') => handler e s'
           end.

Definition gets {A} (f : Session -> A) : M A := fun s => (inr (f s), s).

Definition modify (f : Session -> Session) : M unit :=
  fun s => (inr tt, f s).

Declare Scope py_scope.
Delimit Scope py_scope with py.
Notation "x <- m ;; k" := (bind m (fun x => k))
  (at level 61, m at next level, right associativity) : py_scope.
Notation "m ;; k" := (bind m (fun _ => k))
  (at level 61, right associativity) : py_scope.
Local Open Scope py_scope.

(** [str(e)] *)
Definition exn_str (e : exn) : string :=
  match e with
  | ValueError => "invalid literal for int()"
  | OverflowError => "cannot convert float infinity to integer"
  | AttributeError => "'NoneType' object has no attribute 'isoformat'"
  | SQLAlchemyError msg => msg
  | HTTPException _ detail => detail
  end.

(** *** Queries *)

(** [order_by(key.desc())]: a stable insertion sort, greatest first.
    The store leaves the order of equal keys open; here equal keys keep
    their store order. *)
Fixpoint insert_desc {A} (leb : A -> A -> bool) (x : A) (l : list A)
  : list A :=
  match l with
  | [] => [x]
  | y :: ys => if leb y x then x :: l else y :: insert_desc leb x ys
  end.

Definition order_by_desc {A} (leb : A -> A -> bool) (l : list A) : list A :=
  fold_right (insert_desc leb) [] l.

(** [.first()] *)
Definition first {A} (l : list A) : option A := hd_error l.

(** *** Writes *)

Definition flush_row (r : row) (s : Session) : Session :=
  match r with
  | CustomerRow c =>
      mkSession (customers s ++ [c]) (employment_rows s) (loan_rows s)
        (pending s)
  | EmploymentRow e =>
      mkSession (customers s) (employment_rows s ++ [e]) (loan_rows s)
        (pending s)
  | LoanRow l =>
      mkSession (customers s) (employment_rows s) (loan_rows s ++ [l])
        (pending s)
  end.

Definition clear_pending (s : Session) : Session :=
  mkSession (customers s) (employment_rows s) (loan_rows s) [].

Definition with_outcome (o : outcome) (m : M unit) : M unit :=
  match o with
  | Succeeds => m
  | Fails msg => raise (SQLAlchemyError msg)
  end.

(** [db.add(r)] *)
Definition db_add (env : Env) (r : row) : M unit :=
  with_outcome (add_outcome env)
    (modify (fun s =>
       mkSession (customers s) (employment_rows s) (loan_rows s)
         (pending s ++ [r]))).

(** [db.commit()]: all pending rows become visible at once, or none. *)
Definition db_commit (env : Env) : M unit :=
  with_outcome (commit_outcome env)
    (modify (fun s =>
       clear_pending (fold_left (fun s' r => flush_row r s') (pending s) s))).

(** [db.refresh(x)]: reads the committed row back. *)
Definition db_refresh {A} (env : Env) (x : A) : M A :=
  with_outcome (refresh_outcome env) (ret tt) ;; ret x.

(** [db.rollback()] *)
Definition db_rollback : M unit := modify clear_pending.

(** ** Response bodies *)

(** A JSON number as the endpoint builds it: a Python [int] or [float]. *)
Inductive number : Type :=
| Int (n : Z)
| Float (x : Py.float).

Module CustomerCreated.
Record t : Type := mk {
  message : string;
  customer_id : string;
  name : string;
  email : string;
  mobile : string;
  customer_since : string
}.
End CustomerCreated.

Module EmploymentAdded.
Record t : Type := mk {
  message : string;
  customer_id : string;
  designation : string;
  monthly_income : Py.float;
  status : string;
  verification : string
}.
End EmploymentAdded.

Module LoanAdded.
Record t : Type := mk {
  message : string;
  customer_id : string;
  loan_amount : Py.float;
  loan_purpose : string;
  application_date : string;
  status : string;
  collateral : string
}.
End LoanAdded.

Module ExistingLoan.
Record t : Type := mk {
  type : string;
  amount : Py.float;
  monthly_emi : number;
  tenure_years : Z;
  status : string
}.
End ExistingLoan.

Module Summary.
Record t : Type := mk {
  customer_id : string;
  name : string;
  monthly_income : number;
  credit_score : option Z;
  existing_loans : list ExistingLoan.t
}.
End Summary.

(** ** POST /api/start-application/personal-details *)

(** [db.query(MasterCustomerData).order_by(Customer_ID.desc()).first()]:
    [Customer_ID] is a string column, so the identifiers are compared as
    strings. *)
Definition latest_customer (s : Session) : option MasterCustomerData.t :=
  first (order_by_desc
           (fun a b => String.leb (MasterCustomerData.Customer_ID a)
                                  (MasterCustomerData.Customer_ID b))
           (customers s)).

(** [int(latest_customer.Customer_ID[4:])], when there is a customer. *)
Definition last_num (latest : option MasterCustomerData.t)
  : exn + option Z :=
  match latest with
  | Some c =>
      match Py.int_of_str
              (Py.slice_from 4 (MasterCustomerData.Customer_ID c)) with
      | inr n => inr (Some n)
      | inl e => inl e
      end
  | None => inr None
  end.

Definition new_num (last : option Z) : Z :=
  match last with
  | Some n => Z.max (n + 1) 111
  | None => 111
  end.

(** The allocation of lines 272-279: the next number and its formatting,
    from the suffix [last] of the latest customer, if any. *)
Definition allocate_next_id (last : option Z) : string :=
  ("CUST" ++ Py.format_0d 4 (new_num last))%string.

Definition create_personal_details
  (env : Env) (details : PersonalDetailsRequest.t) : M CustomerCreated.t :=
  latest <- gets latest_customer ;;
  last <- lift (last_num latest) ;;
  let customer_id := allocate_next_id last in
  let new_customer :=
    MasterCustomerData.mk customer_id
      (PersonalDetailsRequest.name details)
      (PersonalDetailsRequest.fathers_name details)
      (PersonalDetailsRequest.dob details)
      (PersonalDetailsRequest.age details)
      (PersonalDetailsRequest.gender details)
      (PersonalDetailsRequest.marital_status details)
      (PersonalDetailsRequest.address details)
      (PersonalDetailsRequest.city details)
      (PersonalDetailsRequest.state details)
      (PersonalDetailsRequest.pincode details)
      (PersonalDetailsRequest.mobile details)
      (PersonalDetailsRequest.alternate_mobile details)
      (PersonalDetailsRequest.email details)
      (PersonalDetailsRequest.nationality details)
      (Some (today env)) in
  try_except
    (db_add env (CustomerRow new_customer) ;;
     db_commit env ;;
     new_customer <- db_refresh env new_customer ;;
     since <- match MasterCustomerData.Customer_Since new_customer with
              | Some d => ret (isoformat d)
              | None => raise AttributeError
              end ;;
     ret (CustomerCreated.mk "Customer created successfully"
            customer_id
            (MasterCustomerData.Name new_customer)
            (MasterCustomerData.Email new_customer)
            (Py.str_of_int (MasterCustomerData.Mobile new_customer))
            since))
    (fun e =>
       db_rollback ;;
       raise (HTTPException 500
                ("Failed to create customer: " ++ exn_str e)%string)).

(** ** POST /api/users/{customer_id}/employment-details *)

(** [db.query(MasterCustomerData).filter_by(Customer_ID=customer_id).first()] *)
Definition find_customer (customer_id : string) (s : Session)
  : option MasterCustomerData.t :=
  first (filter (fun c => (MasterCustomerData.Customer_ID c =? customer_id)%string)
           (customers s)).

Definition add_employment_details
  (env : Env) (customer_id : string) (details : EmploymentDetailsRequest.t)
  : M EmploymentAdded.t :=
  customer <- gets (find_customer customer_id) ;;
  match customer with
  | None => raise (HTTPException 404 "Customer not found")
  | Some _ =>
      income <- lift (Py.int_of_float
                        (EmploymentDetailsRequest.monthly_income details)) ;;
      let employment :=
        EmploymentInfo.mk customer_id
          (EmploymentDetailsRequest.designation details)
          income "Active" "Pending" in
      try_except
        (db_add env (EmploymentRow employment) ;;
         db_commit env ;;
         employment <- db_refresh env employment ;;
         ret (EmploymentAdded.mk "Employment details added successfully"
                customer_id
                (EmploymentInfo.Designation employment)
                (Py.float_of_int (EmploymentInfo.Monthly_Income employment))
                (EmploymentInfo.Employment_Status employment)
                (EmploymentInfo.Income_Verification employment)))
        (fun e =>
           db_rollback ;;
           raise (HTTPException 500
                    ("Failed to add employment details: " ++ exn_str e)%string))
  end.

(** ** POST /api/users/{customer_id}/loan-info *)

Definition add_loan_info
  (env : Env) (customer_id : string) (details : LoanApplicationRequest.t)
  : M LoanAdded.t :=
  customer <- gets (find_customer customer_id) ;;
  match customer with
  | None => raise (HTTPException 404 "Customer not found")
  | Some _ =>
      amount <- lift (Py.int_of_float
                        (LoanApplicationRequest.loan_amount details)) ;;
      let loan :=
        LoanInfo.mk customer_id
          (LoanApplicationRequest.loan_required details)
          amount "Home"
          (Py.or_else (LoanApplicationRequest.application_date details)
             (today env))
          (LoanApplicationRequest.loan_status details)
          "documents" None None None in
      try_except
        (db_add env (LoanRow loan) ;;
         db_commit env ;;
         loan <- db_refresh env loan ;;
         ret (LoanAdded.mk "Loan application added successfully"
                customer_id
                (Py.float_of_int (LoanInfo.Loan_Amount loan))
                (LoanInfo.Loan_Purpose loan)
                (isoformat (LoanInfo.Application_Date loan))
                (LoanInfo.Loan_Status loan)
                (LoanInfo.Collateral_Required loan)))
        (fun e =>
           db_rollback ;;
           raise (HTTPException 500
                    ("Failed to add loan information: " ++ exn_str e)%string))
  end.

(** ** GET /api/users/{customer_id}/summary *)

(** [db.query(EmploymentInfo).filter_by(Customer_ID=customer_id).first()] *)
Definition find_employment (customer_id : string) (s : Session)
  : option EmploymentInfo.t :=
  first (filter (fun e => (EmploymentInfo.Customer_ID e =? customer_id)%string)
           (employment_rows s)).

(** The loans with [Loan_Required == "Yes"] and [Loan_Amount > 0]. *)
Definition query_loans (customer_id : string) (s : Session)
  : list LoanInfo.t :=
  filter (fun l =>
            (LoanInfo.Customer_ID l =? customer_id)%string
            && (LoanInfo.Loan_Required l =? "Yes")%string
            && (LoanInfo.Loan_Amount l >? 0))
    (loan_rows s).

(** The most recent application among the [Loan_Required == "Yes"] rows. *)
Definition latest_loan (customer_id : string) (s : Session)
  : option LoanInfo.t :=
  first (order_by_desc
           (fun a b => date_leb (LoanInfo.Application_Date a)
                                (LoanInfo.Application_Date b))
           (filter (fun l =>
                      (LoanInfo.Customer_ID l =? customer_id)%string
                      && (LoanInfo.Loan_Required l =? "Yes")%string)
              (loan_rows s))).

(** One entry of ["existing_loans"]. *)
Definition format_loan (loan : LoanInfo.t) : ExistingLoan.t :=
  ExistingLoan.mk
    (LoanInfo.Loan_Purpose loan)
    (Py.float_of_int (LoanInfo.Loan_Amount loan))
    (match LoanInfo.EMI loan with
     | Some emi => if Py.truthy (Some emi)
                   then Float (Py.float_of_int emi) else Int 0
     | None => Int 0
     end)
    (Py.floordiv (Py.or_zero (LoanInfo.Tenure_Months loan)) 12)
    (LoanInfo.Loan_Status loan).

Definition get_customer_summary (customer_id : string) : M Summary.t :=
  customer <- gets (find_customer customer_id) ;;
  match customer with
  | None => raise (HTTPException 404 "Customer not found")
  | Some customer =>
      employment <- gets (find_employment customer_id) ;;
      loans <- gets (query_loans customer_id) ;;
      latest_loan <- gets (latest_loan customer_id) ;;
      let credit_score :=
        match latest_loan with
        | Some l => LoanInfo.Credit_Score l
        | None => None
        end in
      let existing_loans := map format_loan loans in
      ret (Summary.mk
             (MasterCustomerData.Customer_ID customer)
             (MasterCustomerData.Name customer)
             (match employment with
              | Some e => Float (Py.float_of_int (EmploymentInfo.Monthly_Income e))
              | None => Int 0
              end)
             credit_score
             existing_loans)
  end.

(** ** GET /api/users/search *)

(** The string predicates of the store that the search uses. *)
Module Sql.

(** [lower(c)] on the ASCII letters. *)
Definition lower (c : ascii) : ascii :=
  let n := N_of_ascii c in
  if ((65 <=? n) && (n <=? 90))%N then ascii_of_N (n + 32) else c.

(** [value LIKE pattern]: [%] stands for any run of characters, [_] for
    any one character, every other character for itself.  A backslash or
    a bracket in the pattern means itself here, as in SQL without an
    ESCAPE clause; some stores read them otherwise.  Both operands are
    sequences of characters, so [_] consumes one element of [value]. *)
Fixpoint like (pattern value : list ascii) : bool :=
  match pattern with
  | [] => match value with [] => true | _ :: _ => false end
  | p :: pattern' =>
      if (p =? "%")%char then
        (fix any_run (v : list ascii) : bool :=
           like pattern' v
           || match v with
              | [] => false
              | _ :: v' => any_run v'
              end) value
      else
        match value with
        | [] => false
        | c :: value' =>
            ((p =? "_")%char || (p =? c)%char) && like pattern' value'
        end
  end.

(** [column.ilike(pattern)]: [LIKE] on the lower-cased operands. *)
Definition ilike (value pattern : string) : bool :=
  like (map lower (list_ascii_of_string pattern))
       (map lower (list_ascii_of_string value)).

End Sql.

Module CustomerMatch.
Record t : Type := mk {
  customer_id : string;
  name : string;
  age : Z;
  city : string;
  state : string;
  customer_since : option string
}.
End CustomerMatch.

Module SearchResult.
Record t : Type := mk {
  search_term : string;
  matches_found : Z;
  customers : list CustomerMatch.t
}.
End SearchResult.

(** [db.query(MasterCustomerData).filter(Name.ilike(f"%{name}%")).all()] *)
Definition search_customers (name : string) (s : Session)
  : list MasterCustomerData.t :=
  filter (fun c => Sql.ilike (MasterCustomerData.Name c)
                     ("%" ++ name ++ "%")%string)
    (customers s).

(** One entry of ["customers"] in the search result. *)
Definition format_match (customer : MasterCustomerData.t)
  : CustomerMatch.t :=
  CustomerMatch.mk
    (MasterCustomerData.Customer_ID customer)
    (MasterCustomerData.Name customer)
    (MasterCustomerData.Age customer)
    (MasterCustomerData.City customer)
    (MasterCustomerData.State customer)
    (match MasterCustomerData.Customer_Since customer with
     | Some d => Some (isoformat d)
     | None => None
     end).

Definition get_customer_id_by_name (name : string) : M SearchResult.t :=
  customers <- gets (search_customers name) ;;
  match customers with
  | [] =>
      raise (HTTPException 404
               ("No customers found with name containing '" ++ name ++ "'")%string)
  | _ :: _ =>
      let results := map format_match customers in
      ret (SearchResult.mk name (Z.of_nat (List.length results)) results)
  end.

(** ** Sequences of requests *)

(** The creation requests [requests], one after the other, each on the
    session the previous one left. *)
Fixpoint create_all (env : Env) (requests : list PersonalDetailsRequest.t)
  : M (list CustomerCreated.t) :=
  match requests with
  | [] => ret []
  | details :: rest =>
      created <- create_personal_details env details ;;
      others <- create_all env rest ;;
      ret (created :: others)
  end.

(** ** Vocabulary of the statements *)

(** The number denoted by a list of decimal digits. *)
Definition digits_num (l : list ascii) : Z :=
  fold_left (fun a c => 10 * a + Py.digit_val c) l 0.

(** An identifier of the issued shape: ["CUST"] and four decimal digits
    denoting [n]. *)
Definition four_digit_id (id : string) (n : Z) : Prop :=
  exists ds,
    id = ("CUST" ++ string_of_list_ascii ds)%string /\
    List.length ds = 4%nat /\
    Forall (fun c => Py.is_digit c = true) ds /\
    digits_num ds = n.

(** The head of a list dominates the rest for the order [leb]. *)
Definition head_max {A} (leb : A -> A -> bool) (l : list A) : Prop :=
  match l with
  | [] => True
  | x :: r => Forall (fun y => leb y x = true) r
  end.

(** A request starts on a fresh session: nothing is pending. *)
Definition fresh (s : Session) : Prop := pending s = [].

(** A customer with this identifier is stored. *)
Definition customer_exists (customer_id : string) (s : Session) : Prop :=
  exists c, In c (customers s) /\ MasterCustomerData.Customer_ID c = customer_id.

(** [M] is the greatest numeric suffix among the stored identifiers: some
    stored identifier reads [M] after its first four characters, and no
    stored identifier reads a greater number. *)
Definition max_suffix (s : Session) (M : Z) : Prop :=
  (exists c,
     In c (customers s) /\
     Py.int_of_str (Py.slice_from 4 (MasterCustomerData.Customer_ID c))
     = inr M) /\
  forall c n,
    In c (customers s) ->
    Py.int_of_str (Py.slice_from 4 (MasterCustomerData.Customer_ID c))
    = inr n ->
    n <= M.

(** A loan row of the customer for which a loan was requested. *)
Definition loan_requested (customer_id : string) (l : LoanInfo.t) : Prop :=
  LoanInfo.Customer_ID l = customer_id /\
  LoanInfo.Loan_Required l = "Yes"%string.

(** An existing loan of the customer: requested, with a positive amount. *)
Definition existing_loan (customer_id : string) (l : LoanInfo.t) : Prop :=
  LoanInfo.Customer_ID l = customer_id /\
  LoanInfo.Loan_Required l = "Yes"%string /\
  0 < LoanInfo.Loan_Amount l.

(** The row each creation endpoint builds from its request. *)
Definition employment_row
  (customer_id : string) (details : EmploymentDetailsRequest.t) (income : Z)
  : EmploymentInfo.t :=
  EmploymentInfo.mk customer_id
    (EmploymentDetailsRequest.designation details) income "Active" "Pending".

Definition loan_row
  (env : Env) (customer_id : string) (details : LoanApplicationRequest.t)
  (amount : Z) : LoanInfo.t :=
  LoanInfo.mk customer_id
    (LoanApplicationRequest.loan_required details) amount "Home"
    (match LoanApplicationRequest.application_date details with
     | Some d => d
     | None => today env
     end)
    (LoanApplicationRequest.loan_status details) "documents" None None None.

(** [n] is [x] truncated toward zero. *)
Definition truncation_of (x : Q) (n : Z) : Prop :=
  (Qabs (inject_Z n) <= Qabs x)%Q /\
  (Qabs x < Qabs (inject_Z n) + 1)%Q /\
  ((0 <= x)%Q -> 0 <= n) /\
  ((x <= 0)%Q -> n <= 0).

(** The float denotes a number that is not an integer (zeros, infinities
    and NaN, whose [value] is 0, do not). *)
Definition has_fraction (x : Py.float) : Prop :=
  forall z, ~ (Py.value x == inject_Z z)%Q.


(** The three writes of a request succeed. *)
Definition writes_succeed (env : Env) : Prop :=
  add_outcome env = Succeeds /\
  commit_outcome env = Succeeds /\
  refresh_outcome env = Succeeds.

(** [kept_in_order l' l]: [l'] is [l] with some elements left out. *)
Inductive kept_in_order {A} : list A -> list A -> Prop :=
| kept_nil : kept_in_order [] []
| kept_take x l' l : kept_in_order l' l -> kept_in_order (x :: l') (x :: l)
| kept_drop x l' l : kept_in_order l' l -> kept_in_order l' (x :: l).

(** ** Sample data for the concrete runs *)

Module Sample.

Definition customer (customer_id : string) : MasterCustomerData.t :=
  MasterCustomerData.mk customer_id "Ramesh Gupta" "Suresh Gupta"
    (mkdate 1990 5 17) 34 "Male" "Married" "12 MG Road" "Pune"
    "Maharashtra" 411001 9876543210 None "ramesh@example.com" "Indian"
    (Some (mkdate 2024 1 2)).

Definition details : PersonalDetailsRequest.t :=
  PersonalDetailsRequest.mk "Anita Rao" "Mohan Rao" (mkdate 1988 11 3) 36
    "Female" "Single" "4 Lake View" "Hyderabad" "Telangana" 500001
    9123456780 None "anita@example.com" "Indian".

(** Every write succeeds. *)
Definition env : Env := mkEnv (mkdate 2024 6 1) Succeeds Succeeds Succeeds.

(** The commit is refused by the store. *)
Definition env_commit_fails : Env :=
  mkEnv (mkdate 2024 6 1) Succeeds (Fails "connection lost") Succeeds.

(** The commit is refused by a uniqueness constraint on the identifier. *)
Definition env_duplicate_key : Env :=
  mkEnv (mkdate 2024 6 1) Succeeds
    (Fails "UNIQUE constraint failed: Customer_ID") Succeeds.

Definition store (cs : list MasterCustomerData.t) : Session :=
  mkSession cs [] [] [].

(** The binary64 numbers -5.0 and 50000.75. *)
Definition minus_five : Py.float :=
  S754_finite true 5629499534213120 (-50).

Definition fifty_thousand_and_three_quarters : Py.float :=
  S754_finite false 6872050752815104 (-37).

Definition loan (customer_id required : string) (amount : Z)
  (applied : date) (tenure score : option Z) : LoanInfo.t :=
  LoanInfo.mk customer_id required amount "Home" applied "PENDING"
    "documents" None tenure score.

(** One customer with a requested loan of 200000 over 18 months, a loan
    row that was not requested, a later requested row of amount 0, and a
    loan of another customer. *)
Definition loans_store : Session :=
  mkSession [customer "CUST0111"] []
    [loan "CUST0111" "Yes" 200000 (mkdate 2024 3 9) (Some 18) (Some 700);
     loan "CUST0111" "No" 5000 (mkdate 2024 4 1) None (Some 650);
     loan "CUST0111" "Yes" 0 (mkdate 2024 5 1) None (Some 710);
     loan "CUST0112" "Yes" 9000 (mkdate 2024 5 2) (Some 24) (Some 800)]
    [].

(** The identifiers a store holds once the 9889th customer was created
    on an empty store, and after one more creation. *)
Definition store_9999 : Session := store [customer "CUST9999"].

Definition store_10000 : Session :=
  store [customer "CUST9999"; customer "CUST10000"].

(** The binary64 numbers 50000.0 and 200000.0. *)
Definition fifty_thousand : Py.float :=
  S754_finite false 6871947673600000 (-37).

Definition two_hundred_thousand : Py.float :=
  S754_finite false 6871947673600000 (-35).

(** Create a customer, add employment and a loan, fetch the summary. *)
Definition scenario : M Summary.t :=
  created <- create_personal_details env details ;;
  let customer_id := CustomerCreated.customer_id created in
  add_employment_details env customer_id
    (EmploymentDetailsRequest.mk "Engineer" fifty_thousand) ;;
  add_loan_info env customer_id
    (LoanApplicationRequest.with_defaults two_hundred_thousand) ;;
  get_customer_summary customer_id.

End Sample.

(** ** Further vocabulary *)

(** A character that [LIKE] reads as itself in every store. *)
Definition literal_char (c : ascii) : bool :=
  negb ((c =? "%")%char || (c =? "_")%char || (c =? "\")%char
        || (c =? "[")%char).

Definition literal_term (term : string) : Prop :=
  Forall (fun c => literal_char c = true) (list_ascii_of_string term).

(** [term] occurs in [text] when letter case is ignored. *)
Definition contains_ignoring_case (text term : string) : Prop :=
  exists before after,
    map Sql.lower (list_ascii_of_string text)
    = before ++ map Sql.lower (list_ascii_of_string term) ++ after.

(** A pattern character that is no wildcard. *)
Definition plain_char (c : ascii) : Prop :=
  (c =? "%")%char = false /\ (c =? "_")%char = false.

(** Every employment and loan row belongs to a stored customer. *)
Definition rows_reference_customers (s : Session) : Prop :=
  (forall e, In e (employment_rows s) ->
             customer_exists (EmploymentInfo.Customer_ID e) s) /\
  (forall l, In l (loan_rows s) ->
             customer_exists (LoanInfo.Customer_ID l) s).

(** Every stored identifier has the issued shape. *)
Definition four_digit_store (s : Session) : Prop :=
  forall c, In c (customers s) ->
            exists n, four_digit_id (MasterCustomerData.Customer_ID c) n.

(** The row [create_personal_details] builds from its request. *)
Definition customer_row
  (env : Env) (details : PersonalDetailsRequest.t) (customer_id : string)
  : MasterCustomerData.t :=
  MasterCustomerData.mk customer_id
    (PersonalDetailsRequest.name details)
    (PersonalDetailsRequest.fathers_name details)
    (PersonalDetailsRequest.dob details)
    (PersonalDetailsRequest.age details)
    (PersonalDetailsRequest.gender details)
    (PersonalDetailsRequest.marital_status details)
    (PersonalDetailsRequest.address details)
    (PersonalDetailsRequest.city details)
    (PersonalDetailsRequest.state details)
    (PersonalDetailsRequest.pincode details)
    (PersonalDetailsRequest.mobile details)
    (PersonalDetailsRequest.alternate_mobile details)
    (PersonalDetailsRequest.email details)
    (PersonalDetailsRequest.nationality details)
    (Some (today env)).

(** Every character of the text is an ASCII character. *)
Definition ascii_only (text : string) : Prop :=
  forallb (fun c => (N_of_ascii c <? 128)%N) (list_ascii_of_string text)
  = true.

(** Every stored identifier is made of ASCII characters. *)
Definition ascii_identifiers (s : Session) : Prop :=
  forall c, In c (customers s) ->
            ascii_only (MasterCustomerData.Customer_ID c).

(** Every stored name is made of ASCII characters. *)
Definition ascii_names (s : Session) : Prop :=
  forall c, In c (customers s) -> ascii_only (MasterCustomerData.Name c).

(** The letters ["A"] to ["Z"] and ["a"] to ["z"]. *)
Definition is_letter (c : ascii) : bool :=
  let n := N_of_ascii c in
  (((65 <=? n) && (n <=? 90)) || ((97 <=? n) && (n <=? 122)))%N.

(** The identifier starts with ["CUST"] and goes on with a letter. *)
Definition letter_after_prefix (id : string) : Prop :=
  exists c rest,
    id = ("CUST" ++ String c rest)%string /\ is_letter c = true.

Definition has_prefix_cust (id : string) : Prop :=
  exists rest, id = ("CUST" ++ rest)%string.

(** The stored customers carry, in store order, the numbers 111, 112,
    ... up to [110 + j], each in an identifier of four digits. *)
Definition numbered_from_111 (j : nat) (s : Session) : Prop :=
  Forall2
    (fun c i =>
       four_digit_id (MasterCustomerData.Customer_ID c) (111 + Z.of_nat i))
    (customers s) (seq 0 j).

(** The entry the summary lists for a loan row that [add_loan_info]
    built. *)
Definition new_loan_entry (amount : Z) (status : string) : ExistingLoan.t :=
  ExistingLoan.mk "Home" (Py.float_of_int amount) (Int 0) 0 status.

(** ** Further sample data *)

Module Demo.

(** One customer with an employment row of 40000. *)
Definition employed_store : Session :=
  mkSession [Sample.customer "CUST0111"]
    [EmploymentInfo.mk "CUST0111" "Clerk" 40000 "Active" "Pending"] [] [].

(** A second employment record, of 50000.0, for that customer. *)
Definition second_job : EmploymentDetailsRequest.t :=
  EmploymentDetailsRequest.mk "Engineer" Sample.fifty_thousand.

(** A loan application of 200000.0 with the defaults of the class. *)
Definition application : LoanApplicationRequest.t :=
  LoanApplicationRequest.with_defaults Sample.two_hundred_thousand.

(** The binary64 number [2^60]. *)
Definition two_to_the_sixty : Py.float :=
  S754_finite false 4503599627370496 8.

(** The refresh after the commit fails. *)
Definition env_refresh_fails : Env :=
  mkEnv (mkdate 2024 6 1) Succeeds Succeeds (Fails "connection lost").

End Demo.

(** * Properties *)

(** ** Decimal printing and parsing *)

Module PyFacts.
Import Py.

Lemma digit_char_is_digit d :
  0 <= d < 10 -> is_digit (digit_char d) = true /\ digit_val (digit_char d) = d.
Proof.
  intros Hd.
  assert (Hc : In d [0;1;2;3;4;5;6;7;8;9]) by (simpl; lia).
  simpl in Hc.
  repeat (destruct Hc as [<- | Hc]; [split; reflexivity |]).
  contradiction.
Qed.

Lemma is_digit_range c : is_digit c = true -> 0 <= digit_val c < 10.
Proof.
  unfold is_digit, digit_val. intros H.
  apply andb_true_iff in H as [H1 H2].
  apply N.leb_le in H1. apply N.leb_le in H2. lia.
Qed.

(** The characters [int()] strips are exactly these eight. *)
Lemma is_space_spec c :
  is_space c = true
  <-> In (N_of_ascii c) [9; 10; 11; 12; 13; 32; 133; 160]%N.
Proof.
  unfold is_space. cbn [In].
  rewrite !orb_true_iff, andb_true_iff, !N.leb_le, !N.eqb_eq. lia.
Qed.

(** A character outside the six ASCII white-space characters and below
    128 is not stripped. *)
Lemma not_space_between c :
  (33 <= N_of_ascii c < 128)%N -> is_space c = false.
Proof.
  intros H. unfold is_space.
  repeat (apply orb_false_iff; split).
  - apply andb_false_iff. right. apply N.leb_gt. lia.
  - apply N.eqb_neq. lia.
  - apply N.eqb_neq. lia.
  - apply N.eqb_neq. lia.
Qed.

Lemma is_digit_not_space c : is_digit c = true -> is_space c = false.
Proof.
  unfold is_digit. intros H.
  apply andb_true_iff in H as [H1 H2].
  apply N.leb_le in H1. apply N.leb_le in H2.
  apply not_space_between. lia.
Qed.

Lemma is_digit_not_sign c :
  is_digit c = true -> (c =? "-")%char = false /\ (c =? "+")%char = false.
Proof.
  intros H. split; apply Ascii.eqb_neq; intros ->; discriminate H.
Qed.

Lemma fold_digits_acc l a :
  fold_left (fun a c => 10 * a + digit_val c) l a
  = a * 10 ^ Z.of_nat (List.length l) + digits_num l.
Proof.
  unfold digits_num. revert a.
  induction l as [| c l IH]; intros a.
  - simpl. lia.
  - cbn [fold_left List.length]. rewrite IH, (IH (10 * 0 + digit_val c)).
    rewrite Nat2Z.inj_succ, Z.pow_succ_r by lia. ring.
Qed.

Lemma digits_num_cons c l :
  digits_num (c :: l)
  = digit_val c * 10 ^ Z.of_nat (List.length l) + digits_num l.
Proof.
  unfold digits_num at 1. cbn [fold_left].
  rewrite fold_digits_acc. ring.
Qed.

Lemma digits_num_app l r :
  digits_num (l ++ r)
  = digits_num l * 10 ^ Z.of_nat (List.length r) + digits_num r.
Proof.
  unfold digits_num at 1. rewrite fold_left_app.
  rewrite fold_digits_acc. reflexivity.
Qed.

Lemma digits_num_zeros k : digits_num (repeat "0"%char k) = 0.
Proof.
  induction k as [| k IH]; [reflexivity |].
  cbn [repeat]. rewrite digits_num_cons, IH. reflexivity.
Qed.

(** On a string of digits the parser computes [digits_num]. *)
Lemma digits_value_digits l :
  Forall (fun c => is_digit c = true) l ->
  forall a b, l <> [] \/ b = false ->
  digits_value a b l
  = Some (fold_left (fun a c => 10 * a + digit_val c) l a).
Proof.
  induction 1 as [| c l Hc Hl IH]; intros a b Hne.
  - destruct Hne as [Hne | ->]; [congruence | reflexivity].
  - cbn [digits_value fold_left]. rewrite Hc. apply IH. now right.
Qed.

Lemma lstrip_digit c l : is_digit c = true -> lstrip (c :: l) = c :: l.
Proof. intros H. cbn. now rewrite (is_digit_not_space c H). Qed.

Lemma strip_digits l :
  Forall (fun c => is_digit c = true) l -> strip l = l.
Proof.
  intros H. unfold strip.
  assert (Hl : lstrip l = l).
  { destruct H; [reflexivity | now apply lstrip_digit]. }
  rewrite Hl.
  assert (Hr : Forall (fun c => is_digit c = true) (rev l)).
  { apply Forall_forall. intros c Hc. apply in_rev in Hc.
    rewrite Forall_forall in H. auto. }
  assert (Hl' : lstrip (rev l) = rev l).
  { destruct Hr; [reflexivity | now apply lstrip_digit]. }
  rewrite Hl'. apply rev_involutive.
Qed.

(** [int()] reads back a non-empty string of digits. *)
Lemma int_of_str_digits l :
  Forall (fun c => is_digit c = true) l -> l <> [] ->
  int_of_str (string_of_list_ascii l) = inr (digits_num l).
Proof.
  intros H Hne. unfold int_of_str.
  rewrite list_ascii_of_string_of_list_ascii, (strip_digits l H).
  destruct l as [| c t]; [congruence |].
  pose proof (Forall_inv H) as Hc. cbv beta in Hc.
  destruct (is_digit_not_sign c Hc) as [-> ->].
  rewrite (digits_value_digits (c :: t) H 0 true) by (left; congruence).
  reflexivity.
Qed.

(** What [dec_digits_aux] prepends to [acc]: the digits of [n]. *)
Lemma dec_digits_aux_spec f :
  forall n acc, 0 <= n < 2 ^ Z.of_nat f -> (0 < f)%nat ->
  exists ds,
    dec_digits_aux f n acc = ds ++ acc /\
    Forall (fun c => is_digit c = true) ds /\
    digits_num ds = n /\
    (1 <= List.length ds)%nat /\
    n < 10 ^ Z.of_nat (List.length ds) /\
    (List.length ds = 1%nat \/ 10 ^ (Z.of_nat (List.length ds) - 1) <= n).
Proof.
  induction f as [| f IH]; intros n acc Hn Hf; [lia |].
  cbn [dec_digits_aux].
  assert (Hmod : 0 <= n mod 10 < 10) by (apply Z.mod_pos_bound; lia).
  destruct (digit_char_is_digit _ Hmod) as [Hd Hv].
  destruct (Z.eqb_spec (n / 10) 0) as [Hq | Hq].
  - exists [digit_char (n mod 10)].
    assert (n = n mod 10).
    { pose proof (Z.div_mod n 10 ltac:(lia)). lia. }
    repeat split; auto.
    + unfold digits_num. cbn [fold_left]. lia.
    + cbn. lia.
  - assert (Hdiv : 0 < n / 10).
    { pose proof (Z.div_pos n 10 ltac:(lia) ltac:(lia)). lia. }
    assert (Hlt : n / 10 < 2 ^ Z.of_nat f).
    { rewrite Nat2Z.inj_succ, Z.pow_succ_r in Hn by lia.
      apply Z.div_lt_upper_bound; lia. }
    assert (Hf' : (0 < f)%nat).
    { destruct f; [| lia]. simpl in Hlt. lia. }
    destruct (IH (n / 10) (digit_char (n mod 10) :: acc) ltac:(lia) Hf')
      as (ds & Heq & Hall & Hnum & Hlen & Hub & Hlb).
    exists (ds ++ [digit_char (n mod 10)]).
    rewrite Heq, <- app_assoc. cbn [app].
    rewrite length_app. cbn [List.length].
    replace (Z.of_nat (List.length ds + 1)) with (Z.succ (Z.of_nat (List.length ds)))
      by lia.
    rewrite Z.pow_succ_r by lia.
    pose proof (Z.div_mod n 10 ltac:(lia)) as Hdm.
    repeat split.
    + apply Forall_app. split; auto.
    + rewrite digits_num_app, Hnum. cbn [List.length].
      unfold digits_num. cbn [fold_left]. rewrite Hv. lia.
    + lia.
    + lia.
    + right. replace (Z.succ (Z.of_nat (List.length ds)) - 1)
        with (Z.succ (Z.of_nat (List.length ds) - 1)) by lia.
      destruct Hlb as [H1 | Hlb].
      * rewrite H1. simpl. lia.
      * rewrite Z.pow_succ_r by lia. lia.
Qed.

Lemma dec_digits_spec n :
  0 <= n ->
  Forall (fun c => is_digit c = true) (dec_digits n) /\
  digits_num (dec_digits n) = n /\
  (1 <= List.length (dec_digits n))%nat /\
  n < 10 ^ Z.of_nat (List.length (dec_digits n)) /\
  (List.length (dec_digits n) = 1%nat
   \/ 10 ^ (Z.of_nat (List.length (dec_digits n)) - 1) <= n).
Proof.
  intros Hn. unfold dec_digits.
  assert (Hb : 0 <= n < 2 ^ Z.of_nat (S (Z.to_nat (Z.log2 n)))).
  { split; [lia |].
    rewrite Nat2Z.inj_succ, Z2Nat.id by apply Z.log2_nonneg.
    destruct (Z.eq_dec n 0) as [-> | Hne]; [reflexivity |].
    apply Z.log2_spec. lia. }
  destruct (dec_digits_aux_spec _ n [] Hb ltac:(lia))
    as (ds & Heq & H1 & H2 & H3 & H4 & H5).
  rewrite Heq, app_nil_r. auto.
Qed.

End PyFacts.

(** ** Ordered queries *)

Section OrderBy.
Context {A : Type}.
Variable leb : A -> A -> bool.

Lemma insert_desc_perm x l : Permutation (insert_desc leb x l) (x :: l).
Proof.
  induction l as [| y ys IH]; cbn [insert_desc].
  - apply Permutation_refl.
  - destruct (leb y x).
    + apply Permutation_refl.
    + eapply perm_trans; [apply perm_skip, IH | apply perm_swap].
Qed.

Lemma order_by_desc_perm l : Permutation (order_by_desc leb l) l.
Proof.
  induction l as [| x l IH]; cbn.
  - apply perm_nil.
  - eapply perm_trans; [apply insert_desc_perm | apply perm_skip, IH].
Qed.

Lemma first_order_by_none l : first (order_by_desc leb l) = None <-> l = [].
Proof.
  split.
  - intros H. pose proof (order_by_desc_perm l) as P.
    destruct (order_by_desc leb l) as [| y ys]; [| discriminate].
    now apply Permutation_nil.
  - intros ->. reflexivity.
Qed.

Lemma first_order_by_in l x : first (order_by_desc leb l) = Some x -> In x l.
Proof.
  intros H. apply (Permutation_in x (order_by_desc_perm l)).
  destruct (order_by_desc leb l); inversion H. now left.
Qed.

Hypothesis leb_total : forall a b, leb a b = true \/ leb b a = true.
Hypothesis leb_trans :
  forall a b c, leb a b = true -> leb b c = true -> leb a c = true.

Lemma insert_desc_head_max x l :
  head_max leb l -> head_max leb (insert_desc leb x l).
Proof.
  destruct l as [| y ys]; cbn [insert_desc head_max]; intros H.
  - constructor.
  - destruct (leb y x) eqn:E.
    + constructor; [exact E |].
      eapply Forall_impl; [| exact H]. cbv beta. eauto.
    + cbn [head_max].
      assert (Hxy : leb x y = true).
      { destruct (leb_total x y) as [? | ?]; congruence. }
      assert (P : Permutation (insert_desc leb x ys) (x :: ys))
        by apply insert_desc_perm.
      apply Forall_forall. intros z Hz.
      apply (Permutation_in z P) in Hz. destruct Hz as [<- | Hz]; auto.
      rewrite Forall_forall in H. auto.
Qed.

Lemma order_by_desc_head_max l : head_max leb (order_by_desc leb l).
Proof.
  induction l as [| x l IH]; cbn; [exact I |].
  now apply insert_desc_head_max.
Qed.

(** [order_by(...desc()).first()] returns a stored element that no other
    element exceeds. *)
Lemma first_order_by_max l x :
  first (order_by_desc leb l) = Some x ->
  In x l /\ forall y, In y l -> leb y x = true.
Proof.
  intros H. split; [now apply first_order_by_in |].
  intros y Hy.
  pose proof (order_by_desc_head_max l) as Hm.
  pose proof (order_by_desc_perm l) as P.
  apply (Permutation_in y (Permutation_sym P)) in Hy.
  destruct (order_by_desc leb l) as [| h r]; inversion H; subst.
  destruct Hy as [<- | Hy].
  - destruct (leb_total x x); assumption.
  - cbn in Hm. rewrite Forall_forall in Hm. auto.
Qed.

End OrderBy.

(** ** The customer identifier allocator *)

Import Py PyFacts.

Ltac unfold_py :=
  unfold bind, ret, raise, lift, gets, modify, try_except,
    db_add, db_commit, db_refresh, db_rollback, with_outcome in *.

(** [format(n, "04d")] of a non-negative [n]: its decimal digits, padded
    with zeros on the left up to four characters and never truncated. *)
Lemma format_04d_nonneg n :
  0 <= n ->
  exists ds,
    format_0d 4 n = string_of_list_ascii ds /\
    Forall (fun c => is_digit c = true) ds /\
    digits_num ds = n /\
    (4 <= List.length ds)%nat /\
    n < 10 ^ Z.of_nat (List.length ds) /\
    (List.length ds = 4%nat \/ 10 ^ (Z.of_nat (List.length ds) - 1) <= n).
Proof.
  intros Hn. unfold format_0d.
  destruct (Z.ltb_spec n 0) as [? | _]; [lia |].
  rewrite Z.abs_eq by exact Hn.
  destruct (dec_digits_spec n Hn) as (Hall & Hnum & Hlen & Hub & Hlb).
  set (ds := dec_digits n) in *.
  exists (repeat "0"%char (4 - List.length ds) ++ ds).
  cbn [app List.length]. rewrite Nat.sub_0_r.
  split; [reflexivity |].
  assert (Hz : Forall (fun c => is_digit c = true)
                 (repeat "0"%char (4 - List.length ds))).
  { apply Forall_forall. intros c Hc. apply repeat_spec in Hc.
    rewrite Hc. reflexivity. }
  rewrite length_app, repeat_length.
  repeat split.
  - apply Forall_app. split; assumption.
  - rewrite digits_num_app, digits_num_zeros. lia.
  - lia.
  - eapply Z.lt_le_trans; [exact Hub |].
    apply Z.pow_le_mono_r; lia.
  - destruct (Nat.le_gt_cases (List.length ds) 4) as [Hle | Hgt].
    + left. lia.
    + right. replace (4 - List.length ds + List.length ds)%nat
        with (List.length ds) by lia.
      destruct Hlb as [H1 | Hlb]; [lia | exact Hlb].
Qed.

Lemma new_num_floor last : 111 <= new_num last.
Proof. destruct last; cbn; lia. Qed.

(** With no stored customer the query finds nothing, and conversely. *)
Lemma last_num_none s :
  last_num (latest_customer s) = inr None <-> customers s = [].
Proof.
  unfold latest_customer. split.
  - intros H. apply (first_order_by_none
      (fun a b => (MasterCustomerData.Customer_ID a
                   <=? MasterCustomerData.Customer_ID b)%string)).
    destruct (first _) as [c |]; [| reflexivity].
    cbn in H. destruct (int_of_str _); discriminate.
  - intros ->. reflexivity.
Qed.

Lemma create_personal_details_ok env details s last :
  fresh s -> writes_succeed env ->
  last_num (latest_customer s) = inr last ->
  exists r c,
    create_personal_details env details s
    = (inr r, mkSession (customers s ++ [c]) (employment_rows s)
                (loan_rows s) []) /\
    CustomerCreated.customer_id r = allocate_next_id last /\
    MasterCustomerData.Customer_ID c = allocate_next_id last.
Proof.
  intros Hp (Ha & Hc & Hr) Hl.
  unfold create_personal_details. unfold_py.
  rewrite Hl, Ha, Hc, Hr. cbn. rewrite Hp. cbn.
  eexists _, _. split; [reflexivity |]. split; reflexivity.
Qed.

(** The allocator on the suffix it is given: ["CUST"] and the decimal
    digits of the next number, which is 111 without a suffix and
    [max (m + 1) 111] for the suffix [m]; four digits at least, with
    leading zeros only to reach four, and more when the number needs
    them. *)
Lemma allocate_next_id_digits last :
  exists ds,
    allocate_next_id last = ("CUST" ++ string_of_list_ascii ds)%string /\
    Forall (fun ch => is_digit ch = true) ds /\
    digits_num ds
    = match last with
      | None => 111
      | Some m => Z.max (m + 1) 111
      end /\
    int_of_str (string_of_list_ascii ds) = inr (digits_num ds) /\
    (4 <= List.length ds)%nat /\
    (List.length ds = 4%nat
     \/ 10 ^ (Z.of_nat (List.length ds) - 1) <= digits_num ds).
Proof.
  destruct (format_04d_nonneg (new_num last))
    as (ds & Hfmt & Hall & Hnum & Hlen & _ & Hmin).
  { pose proof (new_num_floor last). lia. }
  exists ds.
  split; [unfold allocate_next_id; now rewrite Hfmt |].
  split; [exact Hall |].
  split; [rewrite Hnum; destruct last; reflexivity |].
  split.
  { apply int_of_str_digits; [assumption |].
    intros ->. cbn in Hlen. lia. }
  split; [exact Hlen |].
  rewrite Hnum. exact Hmin.
Qed.

(** ** The customer summary *)

Lemma filter_kept_in_order {A} (p : A -> bool) l :
  kept_in_order (filter p l) l.
Proof.
  induction l as [| x l IH]; cbn; [constructor |].
  destruct (p x); now constructor.
Qed.

Lemma get_customer_summary_found customer_id s c :
  find_customer customer_id s = Some c ->
  get_customer_summary customer_id s
  = (inr (Summary.mk
            (MasterCustomerData.Customer_ID c)
            (MasterCustomerData.Name c)
            (match find_employment customer_id s with
             | Some e =>
                 Float (float_of_int (EmploymentInfo.Monthly_Income e))
             | None => Int 0
             end)
            (match latest_loan customer_id s with
             | Some l => LoanInfo.Credit_Score l
             | None => None
             end)
            (map format_loan (query_loans customer_id s))),
     s).
Proof.
  intros H. unfold get_customer_summary. unfold_py. now rewrite H.
Qed.

Lemma get_customer_summary_missing customer_id s :
  find_customer customer_id s = None ->
  get_customer_summary customer_id s
  = (inl (HTTPException 404 "Customer not found"), s).
Proof.
  intros H. unfold get_customer_summary. unfold_py. now rewrite H.
Qed.

Lemma first_filter_some {A} (p : A -> bool) l x :
  first (filter p l) = Some x -> In x l /\ p x = true.
Proof.
  intros H. apply filter_In.
  destruct (filter p l) as [| y r]; inversion H. now left.
Qed.

Lemma first_filter_none {A} (p : A -> bool) l :
  first (filter p l) = None <-> forall x, In x l -> p x = false.
Proof.
  split.
  - intros H x Hx. destruct (p x) eqn:E; [| reflexivity].
    assert (Hin : In x (filter p l)) by (apply filter_In; auto).
    destruct (filter p l); [contradiction | discriminate].
  - intros H. destruct (filter p l) as [| y r] eqn:E; [reflexivity |].
    assert (Hin : In y (filter p l)) by (rewrite E; now left).
    apply filter_In in Hin as [Hy Hp]. rewrite (H y Hy) in Hp. discriminate.
Qed.

Lemma find_customer_exists customer_id s :
  (exists c, find_customer customer_id s = Some c)
  <-> customer_exists customer_id s.
Proof.
  unfold find_customer, customer_exists. split.
  - intros [c H]. apply first_filter_some in H as [Hin Hp].
    exists c. split; [assumption | now apply String.eqb_eq].
  - intros (c & Hin & Hid).
    destruct (first (filter _ (customers s))) as [c' |] eqn:E; [eauto |].
    rewrite first_filter_none in E. specialize (E c Hin). cbv beta in E.
    apply String.eqb_neq in E. contradiction.
Qed.

Lemma query_loans_In customer_id s l :
  In l (query_loans customer_id s)
  <-> In l (loan_rows s) /\ existing_loan customer_id l.
Proof.
  unfold query_loans, existing_loan. rewrite filter_In.
  rewrite !andb_true_iff, !String.eqb_eq, Z.gtb_lt. tauto.
Qed.

(** C4.  For a customer that exists the summary is returned and its
    [existing_loans] are the formatted entries, in store order, of exactly
    the customer's stored loan rows whose [Loan_Required] is ["Yes"] and
    whose [Loan_Amount] is strictly positive; a stored row that was not
    requested or whose amount is not positive has no entry. *)
Theorem summary_lists_existing_loans customer_id s :
  customer_exists customer_id s ->
  exists r loans,
    get_customer_summary customer_id s = (inr r, s) /\
    Summary.existing_loans r = map format_loan loans /\
    kept_in_order loans (loan_rows s) /\
    (forall l, In l loans
               <-> In l (loan_rows s) /\
                   LoanInfo.Customer_ID l = customer_id /\
                   LoanInfo.Loan_Required l = "Yes"%string /\
                   0 < LoanInfo.Loan_Amount l) /\
    (forall l, In l (loan_rows s) ->
               LoanInfo.Loan_Required l <> "Yes"%string
               \/ LoanInfo.Loan_Amount l <= 0 ->
               ~ In l loans).
Proof.
  intros Hex. apply find_customer_exists in Hex as [c Hc].
  eexists _, (query_loans customer_id s).
  split; [apply (get_customer_summary_found _ _ _ Hc) |].
  split; [reflexivity |].
  split; [apply filter_kept_in_order |].
  split; [intros l; apply query_loans_In |].
  intros l _ Hbad Hin. apply query_loans_In in Hin as (_ & _ & Hy & Ha).
  destruct Hbad; [contradiction | lia].
Qed.

Lemma date_leb_iff a b :
  date_leb a b = true
  <-> year a < year b
      \/ (year a = year b
          /\ (month a < month b \/ (month a = month b /\ day a <= day b))).
Proof.
  unfold date_leb.
  rewrite !orb_true_iff, !andb_true_iff, !orb_true_iff, !andb_true_iff.
  rewrite !Z.ltb_lt, !Z.eqb_eq, Z.leb_le. tauto.
Qed.

Lemma date_leb_total a b : date_leb a b = true \/ date_leb b a = true.
Proof. rewrite !date_leb_iff. lia. Qed.

Lemma date_leb_trans a b c :
  date_leb a b = true -> date_leb b c = true -> date_leb a c = true.
Proof. rewrite !date_leb_iff. lia. Qed.

Lemma latest_loan_spec customer_id s :
  match latest_loan customer_id s with
  | Some l =>
      In l (loan_rows s) /\ loan_requested customer_id l /\
      forall l', In l' (loan_rows s) -> loan_requested customer_id l' ->
                 date_leb (LoanInfo.Application_Date l')
                          (LoanInfo.Application_Date l) = true
  | None =>
      forall l, In l (loan_rows s) -> ~ loan_requested customer_id l
  end.
Proof.
  unfold latest_loan.
  set (p := fun l => ((LoanInfo.Customer_ID l =? customer_id)%string
                      && (LoanInfo.Loan_Required l =? "Yes")%string)%bool).
  set (le := fun a b => date_leb (LoanInfo.Application_Date a)
                                 (LoanInfo.Application_Date b)).
  assert (Hp : forall l, p l = true <-> loan_requested customer_id l).
  { intros l. unfold p, loan_requested.
    now rewrite andb_true_iff, !String.eqb_eq. }
  destruct (first (order_by_desc le (filter p (loan_rows s)))) as [l |] eqn:E.
  - apply first_order_by_max in E as [Hin Hmax].
    + apply filter_In in Hin as [Hin Hpl].
      split; [assumption |]. split; [now apply Hp |].
      intros l' Hin' Hreq. apply Hmax. apply filter_In. split; auto.
      now apply Hp.
    + intros a b. apply date_leb_total.
    + intros a b c. apply date_leb_trans.
  - apply first_order_by_none in E.
    intros l Hin Hreq. apply Hp in Hreq.
    assert (Hf : In l (filter p (loan_rows s))) by (apply filter_In; auto).
    rewrite E in Hf. contradiction.
Qed.

(** C6.  For a customer that exists the summary's credit score is the
    one recorded on a latest loan application: a stored row of the
    customer with [Loan_Required = "Yes"], whatever its amount, whose
    application date no other such row exceeds.  It is null when the
    customer has no row with [Loan_Required = "Yes"]. *)
Theorem summary_credit_score_from_latest_application customer_id s :
  customer_exists customer_id s ->
  exists r,
    get_customer_summary customer_id s = (inr r, s) /\
    ((forall l, In l (loan_rows s) -> ~ loan_requested customer_id l) ->
     Summary.credit_score r = None) /\
    ((exists l, In l (loan_rows s) /\ loan_requested customer_id l) ->
     exists l,
       In l (loan_rows s) /\ loan_requested customer_id l /\
       (forall l', In l' (loan_rows s) -> loan_requested customer_id l' ->
                   date_leb (LoanInfo.Application_Date l')
                            (LoanInfo.Application_Date l) = true) /\
       Summary.credit_score r = LoanInfo.Credit_Score l).
Proof.
  intros Hex. apply find_customer_exists in Hex as [c Hc].
  eexists. split; [apply (get_customer_summary_found _ _ _ Hc) |].
  cbn [Summary.credit_score].
  pose proof (latest_loan_spec customer_id s) as Hl.
  destruct (latest_loan customer_id s) as [l |].
  - destruct Hl as (Hin & Hreq & Hmax). split.
    + intros Hnone. exfalso. exact (Hnone l Hin Hreq).
    + intros _. exists l. auto.
  - split; [reflexivity |].
    intros (l & Hin & Hreq). exfalso. exact (Hl l Hin Hreq).
Qed.

(** C9.  For a customer that exists, every entry of [existing_loans]
    reports as [tenure_years] the floor of the row's tenure in months
    divided by 12, and 0 when the tenure is absent; it reports a monthly
    EMI of 0 when the row has no EMI.  A tenure of 18 months is reported
    as 1 year. *)
Theorem summary_tenure_years_and_emi customer_id s :
  customer_exists customer_id s ->
  exists r,
    get_customer_summary customer_id s = (inr r, s) /\
    Forall2
      (fun loan entry =>
         existing_loan customer_id loan /\
         match LoanInfo.Tenure_Months loan with
         | Some m =>
             ExistingLoan.tenure_years entry = m / 12 /\
             12 * ExistingLoan.tenure_years entry <= m
               < 12 * ExistingLoan.tenure_years entry + 12
         | None => ExistingLoan.tenure_years entry = 0
         end /\
         (LoanInfo.Tenure_Months loan = Some 18 ->
          ExistingLoan.tenure_years entry = 1) /\
         (LoanInfo.EMI loan = None ->
          ExistingLoan.monthly_emi entry = Int 0))
      (query_loans customer_id s) (Summary.existing_loans r).
Proof.
  intros Hex. apply find_customer_exists in Hex as [c Hc].
  eexists. split; [apply (get_customer_summary_found _ _ _ Hc) |].
  cbn [Summary.existing_loans].
  assert (Hall : Forall (existing_loan customer_id)
                   (query_loans customer_id s)).
  { apply Forall_forall. intros l Hl. now apply query_loans_In in Hl. }
  induction Hall as [| loan loans Hq _ IH]; cbn [map]; constructor;
    [| exact IH].
  split; [exact Hq |].
  unfold format_loan. cbn [ExistingLoan.tenure_years ExistingLoan.monthly_emi].
  unfold floordiv.
  split; [| split].
  - destruct (LoanInfo.Tenure_Months loan) as [m |]; cbn [or_zero].
    + split; [reflexivity |].
      pose proof (Z.div_mod m 12 ltac:(lia)).
      pose proof (Z.mod_pos_bound m 12 ltac:(lia)). lia.
    + reflexivity.
  - intros ->. reflexivity.
  - intros ->. reflexivity.
Qed.

Lemma find_employment_none customer_id s :
  find_employment customer_id s = None
  <-> forall e, In e (employment_rows s) ->
                EmploymentInfo.Customer_ID e <> customer_id.
Proof.
  unfold find_employment. rewrite first_filter_none.
  split; intros H e He; specialize (H e He); cbv beta in *;
    now apply String.eqb_neq.
Qed.

Lemma query_loans_nil customer_id s :
  (forall l, In l (loan_rows s) -> ~ existing_loan customer_id l) ->
  query_loans customer_id s = [].
Proof.
  intros H. destruct (query_loans customer_id s) as [| l r] eqn:E;
    [reflexivity |].
  assert (Hin : In l (query_loans customer_id s)) by (rewrite E; now left).
  apply query_loans_In in Hin as [Hin Hq]. destruct (H l Hin Hq).
Qed.

(** C7, as stated, fails: a customer without an employment row whose only
    loan row was requested with amount 0 and carries a credit score has no
    existing loan, yet the summary reports that credit score. *)
Lemma summary_empty_profile_counterexample :
  ~ (forall customer_id s,
       customer_exists customer_id s ->
       (forall e, In e (employment_rows s) ->
                  EmploymentInfo.Customer_ID e <> customer_id) ->
       (forall l, In l (loan_rows s) -> ~ existing_loan customer_id l) ->
       exists r,
         get_customer_summary customer_id s = (inr r, s) /\
         Summary.monthly_income r = Int 0 /\
         Summary.credit_score r = None /\
         Summary.existing_loans r = []).
Proof.
  intros H.
  destruct (H "CUST0111"%string
              (mkSession [Sample.customer "CUST0111"] []
                 [Sample.loan "CUST0111" "Yes" 0 (mkdate 2024 3 9) None
                    (Some 700)] []))
    as (r & Hrun & _ & Hscore & _).
  - eexists. split; [now left | reflexivity].
  - intros e [].
  - intros l [<- | []] (_ & _ & Hpos). cbn in Hpos. lia.
  - vm_compute in Hrun. inversion Hrun; subst r. discriminate Hscore.
Qed.

(** C7, amended.  The summary fails with NotFound (status 404) exactly
    when no customer with the identifier is stored.  For a stored customer
    with no employment row and no existing loan it returns a monthly
    income of 0 and an empty loan list; its credit score is null when the
    customer has no requested loan row at all. *)
Theorem summary_not_found_and_empty_profile customer_id s :
  ((exists detail,
       fst (get_customer_summary customer_id s)
       = inl (HTTPException 404 detail))
   <-> ~ customer_exists customer_id s) /\
  (customer_exists customer_id s ->
   (forall e, In e (employment_rows s) ->
              EmploymentInfo.Customer_ID e <> customer_id) ->
   (forall l, In l (loan_rows s) -> ~ existing_loan customer_id l) ->
   exists r,
     get_customer_summary customer_id s = (inr r, s) /\
     Summary.monthly_income r = Int 0 /\
     Summary.existing_loans r = [] /\
     ((forall l, In l (loan_rows s) -> ~ loan_requested customer_id l) ->
      Summary.credit_score r = None)).
Proof.
  split.
  - rewrite <- find_customer_exists.
    destruct (find_customer customer_id s) as [c |] eqn:Hc.
    + rewrite (get_customer_summary_found _ _ _ Hc). cbn [fst]. split.
      * intros [d Hd]. discriminate Hd.
      * intros Hn. exfalso. apply Hn. eauto.
    + rewrite (get_customer_summary_missing _ _ Hc). cbn [fst]. split.
      * intros _ [c Hc']. discriminate Hc'.
      * intros _. eauto.
  - intros Hex Hemp Hloans.
    apply find_customer_exists in Hex as [c Hc].
    eexists. split; [apply (get_customer_summary_found _ _ _ Hc) |].
    cbn [Summary.monthly_income Summary.existing_loans Summary.credit_score].
    apply find_employment_none in Hemp. rewrite Hemp.
    rewrite (query_loans_nil _ _ Hloans).
    split; [reflexivity |]. split; [reflexivity |].
    intros Hnone.
    pose proof (latest_loan_spec customer_id s) as Hl.
    destruct (latest_loan customer_id s) as [l |]; [| reflexivity].
    destruct Hl as (Hin & Hreq & _). destruct (Hnone l Hin Hreq).
Qed.

(** ** Floats: truncation and exact conversion *)

Module FloatFacts.

Lemma digits2_pos_bounds p :
  2 ^ (Zpos (digits2_pos p) - 1) <= Zpos p < 2 ^ Zpos (digits2_pos p).
Proof.
  induction p as [p IH | p IH |]; cbn [digits2_pos].
  - rewrite Pos2Z.inj_succ, Z.pow_succ_r by lia.
    replace (Z.succ (Zpos (digits2_pos p)) - 1)
      with (Z.succ (Zpos (digits2_pos p) - 1)) by lia.
    rewrite Z.pow_succ_r by lia. lia.
  - rewrite Pos2Z.inj_succ, Z.pow_succ_r by lia.
    replace (Z.succ (Zpos (digits2_pos p)) - 1)
      with (Z.succ (Zpos (digits2_pos p) - 1)) by lia.
    rewrite Z.pow_succ_r by lia. lia.
  - cbn. lia.
Qed.

Lemma iter_xO_pow p k : Zpos (Pos.iter xO p k) = Zpos p * 2 ^ Zpos k.
Proof.
  induction k as [| k IH] using Pos.peano_ind.
  - cbn. lia.
  - rewrite Pos.iter_succ, Pos2Z.inj_succ, Z.pow_succ_r by lia.
    rewrite Pos2Z.inj_xO, IH. ring.
Qed.

Lemma digits2_pos_iter_xO p k :
  digits2_pos (Pos.iter xO p k) = (digits2_pos p + k)%positive.
Proof.
  induction k as [| k IH] using Pos.peano_ind.
  - cbn. lia.
  - rewrite Pos.iter_succ. cbn [digits2_pos]. rewrite IH. lia.
Qed.

(** An integer below [2^53] in magnitude needs no rounding: the mantissa
    is only shifted left to 53 bits. *)
Lemma binary_round_small sx p :
  Zpos p < 2 ^ 53 ->
  exists m e,
    binary_round prec emax sx p 0 = S754_finite sx m e /\
    e <= 0 /\ Zpos m = Zpos p * 2 ^ (- e).
Proof.
  intros Hp.
  pose proof (digits2_pos_bounds p) as Hd.
  assert (Hd53 : Zpos (digits2_pos p) <= 53).
  { destruct (Z.le_gt_cases (Zpos (digits2_pos p)) 53) as [H | H];
      [exact H |].
    exfalso.
    assert (2 ^ 53 <= 2 ^ (Zpos (digits2_pos p) - 1))
      by (apply Z.pow_le_mono_r; lia).
    lia. }
  unfold binary_round.
  assert (Hf : fexp prec emax (Zpos (digits2_pos p) + 0)
               = Zpos (digits2_pos p) - 53).
  { unfold fexp, SpecFloat.emin, prec, emax. lia. }
  rewrite Hf. unfold shl_align.
  destruct (Zpos (digits2_pos p) - 53 - 0) as [| q | q] eqn:E; [| lia |].
  - exists p, 0. split; [| split]; [| lia | cbn; lia].
    unfold binary_round_aux, shr_fexp. cbn [Zdigits2 shr_record_of_loc].
    assert (Hf0 : fexp prec emax (Zpos (digits2_pos p) + 0) - 0 = 0) by lia.
    rewrite Hf0.
    cbn [shr shr_m loc_of_shr_record round_nearest_even Zdigits2
           shr_record_of_loc].
    rewrite Hf0. cbn. reflexivity.
  - exists (Pos.iter xO p q), (Zpos (digits2_pos p) - 53).
    split; [| split]; [| lia |].
    + unfold binary_round_aux, shr_fexp. cbn [Zdigits2 shr_record_of_loc].
      rewrite digits2_pos_iter_xO.
      assert (Hf0 : fexp prec emax
                      (Zpos (digits2_pos p + q)
                       + (Zpos (digits2_pos p) - 53))
                    - (Zpos (digits2_pos p) - 53) = 0).
      { unfold fexp, SpecFloat.emin, prec, emax. lia. }
      rewrite Hf0.
      cbn [shr shr_m loc_of_shr_record round_nearest_even Zdigits2
             shr_record_of_loc].
      rewrite digits2_pos_iter_xO, Hf0. cbn [shr shr_m].
      unfold emax, prec.
      destruct (Z.leb_spec (Zpos (digits2_pos p) - 53) (1024 - 53));
        [reflexivity | lia].
    + rewrite iter_xO_pow. f_equal. f_equal. lia.
Qed.

Lemma value_finite_nonpos_exp sx m e p :
  e <= 0 -> Zpos m = Zpos p * 2 ^ (- e) ->
  (value (S754_finite sx m e) == inject_Z (if sx then Zneg p else Zpos p))%Q.
Proof.
  intros He Hm. unfold value.
  destruct e as [| k | k]; [| lia |].
  - cbn in Hm. rewrite Z.shiftl_0_r.
    assert (m = p) by lia. subst. destruct sx; reflexivity.
  - unfold Qeq, inject_Z. cbn [Qnum Qden].
    rewrite Pos2Z.inj_pow. cbn [Z.opp] in Hm.
    destruct sx.
    + change (Zneg m) with (- Zpos m). change (Zneg p) with (- Zpos p). lia.
    + lia.
Qed.

(** [float(n)] denotes [n] when [|n| < 2^53]. *)
Lemma float_of_int_exact n :
  Z.abs n < 2 ^ 53 -> (value (float_of_int n) == inject_Z n)%Q.
Proof.
  intros Hn. unfold float_of_int, binary_normalize.
  destruct n as [| p | p].
  - reflexivity.
  - destruct (binary_round_small false p Hn) as (m & e & -> & He & Hm).
    now apply (value_finite_nonpos_exp false).
  - destruct (binary_round_small true p Hn) as (m & e & -> & He & Hm).
    now apply (value_finite_nonpos_exp true).
Qed.

(** The mantissa of a binary64 has at most 53 bits. *)
Lemma is_float_mantissa sx m e :
  is_float (S754_finite sx m e) -> Zpos m < 2 ^ 53.
Proof.
  unfold is_float, valid_binary, bounded, canonical_mantissa.
  intros H. apply andb_true_iff in H as [H _]. apply Z.eqb_eq in H.
  pose proof (digits2_pos_bounds m) as [_ Hub].
  assert (Hd : Zpos (digits2_pos m) <= 53).
  { unfold fexp, SpecFloat.emin, prec, emax in H. lia. }
  eapply Z.lt_le_trans; [exact Hub |].
  apply Z.pow_le_mono_r; lia.
Qed.

Lemma int_of_float_finite x :
  is_finite x = true <-> exists n, int_of_float x = inr n.
Proof.
  destruct x; cbn; split; intros H; try discriminate; eauto;
    destruct H as [n H]; discriminate.
Qed.

(** [int(x)] is [x] truncated toward zero: the integer of the same sign
    whose magnitude is the integer part of [|x|]. *)
Lemma int_of_float_truncates x n :
  int_of_float x = inr n -> truncation_of (value x) n.
Proof.
  unfold truncation_of.
  destruct x as [sx | sx | | sx m e]; cbn [int_of_float]; intros H;
    inversion H; subst; clear H.
  - cbn. repeat split; try lia; try discriminate.
  - destruct e as [| k | k].
    + unfold value. rewrite Z.shiftl_0_r.
      unfold Qle, Qlt, Qabs, Qplus, inject_Z. cbn [Qnum Qden Z.shiftl].
      destruct sx; cbn; repeat split; lia.
    + unfold value. rewrite !Z.shiftl_mul_pow2 by lia.
      pose proof (Z.pow_pos_nonneg 2 (Zpos k) ltac:(lia) ltac:(lia)).
      unfold Qle, Qlt, Qabs, Qplus, inject_Z. cbn [Qnum Qden].
      destruct sx.
      * change (Zneg m) with (- Zpos m).
        rewrite Z.mul_opp_l, !Z.abs_opp, !Z.abs_eq by nia.
        repeat split; nia.
      * rewrite !Z.abs_eq by nia. repeat split; nia.
    + unfold value. rewrite Z.shiftr_div_pow2 by lia.
      pose proof (Z.pow_pos_nonneg 2 (Zpos k) ltac:(lia) ltac:(lia)) as Hpow.
      pose proof (Z.div_mod (Zpos m) (2 ^ Zpos k) ltac:(lia)) as Hdm.
      pose proof (Z.mod_pos_bound (Zpos m) (2 ^ Zpos k) Hpow) as Hmod.
      assert (Hq : 0 <= Zpos m / 2 ^ Zpos k) by (apply Z.div_pos; lia).
      unfold Qle, Qlt, Qabs, Qplus, inject_Z. cbn [Qnum Qden].
      rewrite Pos2Z.inj_pow.
      destruct sx.
      * rewrite Z.abs_opp, Z.abs_eq by lia.
        change (Z.abs (Zneg m)) with (Zpos m).
        repeat split; try nia.
      * rewrite Z.abs_eq by lia.
        change (Z.abs (Zpos m)) with (Zpos m).
        repeat split; try nia.
Qed.

(** A float that is not an integer truncates below [2^53] in magnitude. *)
Lemma int_of_float_fraction_small x n :
  is_float x -> int_of_float x = inr n -> has_fraction x ->
  Z.abs n < 2 ^ 53.
Proof.
  unfold has_fraction. intros Hv Hn Hfrac.
  destruct x as [sx | sx | | sx m e]; cbn [int_of_float] in Hn;
    inversion Hn; subst; clear Hn.
  - cbn. lia.
  - pose proof (is_float_mantissa _ _ _ Hv) as Hm.
    destruct e as [| k | k].
    + exfalso. apply (Hfrac (if sx then Zneg m else Zpos m)).
      unfold value. rewrite Z.shiftl_0_r. reflexivity.
    + exfalso.
      apply (Hfrac (Z.shiftl (if sx then Zneg m else Zpos m) (Zpos k))).
      reflexivity.
    + rewrite Z.shiftr_div_pow2 by lia.
      pose proof (Z.pow_pos_nonneg 2 (Zpos k) ltac:(lia) ltac:(lia)) as Hpow.
      assert (Hq : 0 <= Zpos m / 2 ^ Zpos k) by (apply Z.div_pos; lia).
      assert (Hle : Zpos m / 2 ^ Zpos k <= Zpos m).
      { apply Z.div_le_upper_bound; nia. }
      destruct sx; [rewrite Z.abs_opp |]; rewrite Z.abs_eq; lia.
Qed.

End FloatFacts.

(** ** Record creation *)

Import FloatFacts.

(** The guarded insert shared by the creation endpoints:
    [try: add; commit; refresh; return ... except: rollback; raise 500]. *)
Lemma guarded_insert_run {A B} env (r : row) (v : A) (f : A -> B) label s :
  fresh s ->
  try_except
    (db_add env r ;; db_commit env ;; x <- db_refresh env v ;; ret (f x))
    (fun e =>
       db_rollback ;;
       raise (HTTPException 500 (label ++ exn_str e)%string)) s
  = match add_outcome env, commit_outcome env, refresh_outcome env with
    | Succeeds, Succeeds, Succeeds => (inr (f v), flush_row r s)
    | Succeeds, Succeeds, Fails msg =>
        (inl (HTTPException 500 (label ++ msg)%string), flush_row r s)
    | Succeeds, Fails msg, _ | Fails msg, _, _ =>
        (inl (HTTPException 500 (label ++ msg)%string), s)
    end.
Proof.
  unfold fresh. intros Hp. destruct s as [cs es ls ps]. cbn in Hp. subst ps.
  unfold_py.
  destruct (add_outcome env), (commit_outcome env), (refresh_outcome env);
    cbn; try reflexivity; destruct r; reflexivity.
Qed.

Lemma find_customer_missing customer_id s :
  find_customer customer_id s = None <-> ~ customer_exists customer_id s.
Proof.
  rewrite <- find_customer_exists.
  destruct (find_customer customer_id s); split; intros H.
  - discriminate.
  - exfalso. apply H. eauto.
  - intros [c Hc]. discriminate.
  - reflexivity.
Qed.

Lemma add_employment_details_run env customer_id details s :
  fresh s ->
  add_employment_details env customer_id details s
  = match find_customer customer_id s with
    | None => (inl (HTTPException 404 "Customer not found"), s)
    | Some _ =>
        match int_of_float (EmploymentDetailsRequest.monthly_income details)
        with
        | inl e => (inl e, s)
        | inr income =>
            let row := employment_row customer_id details income in
            let label := "Failed to add employment details: "%string in
            match add_outcome env, commit_outcome env, refresh_outcome env
            with
            | Succeeds, Succeeds, Succeeds =>
                (inr (EmploymentAdded.mk
                        "Employment details added successfully" customer_id
                        (EmploymentDetailsRequest.designation details)
                        (float_of_int income) "Active" "Pending"),
                 flush_row (EmploymentRow row) s)
            | Succeeds, Succeeds, Fails msg =>
                (inl (HTTPException 500 (label ++ msg)%string),
                 flush_row (EmploymentRow row) s)
            | Succeeds, Fails msg, _ | Fails msg, _, _ =>
                (inl (HTTPException 500 (label ++ msg)%string), s)
            end
        end
    end.
Proof.
  intros Hf. unfold add_employment_details.
  unfold bind at 1. unfold gets at 1.
  destruct (find_customer customer_id s); [| reflexivity].
  unfold bind at 1. unfold lift at 1.
  destruct (int_of_float _) as [e | income]; [reflexivity |].
  rewrite (guarded_insert_run env _ _ _ _ s Hf).
  destruct (add_outcome env), (commit_outcome env), (refresh_outcome env);
    reflexivity.
Qed.

Lemma add_loan_info_run env customer_id details s :
  fresh s ->
  add_loan_info env customer_id details s
  = match find_customer customer_id s with
    | None => (inl (HTTPException 404 "Customer not found"), s)
    | Some _ =>
        match int_of_float (LoanApplicationRequest.loan_amount details) with
        | inl e => (inl e, s)
        | inr amount =>
            let row := loan_row env customer_id details amount in
            let label := "Failed to add loan information: "%string in
            match add_outcome env, commit_outcome env, refresh_outcome env
            with
            | Succeeds, Succeeds, Succeeds =>
                (inr (LoanAdded.mk
                        "Loan application added successfully" customer_id
                        (float_of_int amount) "Home"
                        (isoformat (LoanInfo.Application_Date row))
                        (LoanApplicationRequest.loan_status details)
                        "documents"),
                 flush_row (LoanRow row) s)
            | Succeeds, Succeeds, Fails msg =>
                (inl (HTTPException 500 (label ++ msg)%string),
                 flush_row (LoanRow row) s)
            | Succeeds, Fails msg, _ | Fails msg, _, _ =>
                (inl (HTTPException 500 (label ++ msg)%string), s)
            end
        end
    end.
Proof.
  intros Hf. unfold add_loan_info.
  unfold bind at 1. unfold gets at 1.
  destruct (find_customer customer_id s); [| reflexivity].
  unfold bind at 1. unfold lift at 1.
  destruct (int_of_float _) as [e | amount]; [reflexivity |].
  rewrite (guarded_insert_run env _ _ _ _ s Hf).
  destruct (add_outcome env), (commit_outcome env), (refresh_outcome env);
    reflexivity.
Qed.

Lemma flush_row_fresh r s : fresh s -> fresh (flush_row r s).
Proof. unfold fresh. intros H. destruct r; exact H. Qed.

(** The conversion of the amount raised: nothing was written. *)
Ltac conversion_raised :=
  repeat split; auto; try contradiction; eauto; exfalso; congruence.

(** The amount converted: one case per outcome of the three writes. *)
Ltac write_outcomes env Hf :=
  unfold writes_succeed;
  destruct (add_outcome env), (commit_outcome env), (refresh_outcome env);
  cbn zeta;
  (split; [try apply flush_row_fresh; exact Hf |]);
  (split; [reflexivity |]); (split; [reflexivity |]);
  (split; [intros ?; contradiction |]);
  (split; [intros _ ?; congruence |]);
  (let Hinc := fresh "Hinc" in
   intros _ ? Hinc; inversion Hinc; subst);
  cbn [flush_row employment_rows loan_rows];
  repeat split; eauto;
  try (intros (? & ? & ?); discriminate);
  try (let Hn := fresh "Hn" in
       intros Hn; exfalso; apply Hn; repeat split; reflexivity);
  try (intros [? | ?]; congruence);
  try (intros; discriminate);
  try (exfalso;
       match goal with
       | H : _ /\ _ /\ _ |- _ => destruct H as (? & ? & ?); discriminate
       end).

(** C5, as stated, fails: for a stored customer and a store that accepts
    every write, a request whose amount is infinite appends no record. *)
Lemma creation_appends_one_record_counterexample :
  ~ (forall env customer_id details s,
       fresh s -> customer_exists customer_id s -> writes_succeed env ->
       exists r row,
         add_employment_details env customer_id details s
         = (inr r, flush_row (EmploymentRow row) s)).
Proof.
  intros H.
  destruct (H Sample.env "CUST0111"%string
              (EmploymentDetailsRequest.mk "Clerk" (S754_infinity false))
              (Sample.store [Sample.customer "CUST0111"]))
    as (r & row & Hrun).
  - reflexivity.
  - eexists. split; [now left | reflexivity].
  - repeat split.
  - vm_compute in Hrun. discriminate Hrun.
Qed.

(** C5, amended.  On a fresh session both creation endpoints leave the
    other tables alone and leave nothing pending.  Without a stored
    customer of that identifier they fail with 404 and write nothing.
    With one, and a finite amount, their table ends either unchanged or
    extended by exactly the one new row: it is extended when the add and
    the commit succeed, and the endpoint answers when the refresh succeeds
    too; when a write fails the endpoint reports status 500 with the
    store's message, and when the failed write is the add or the commit
    the store is unchanged.  An amount that is not finite raises before
    any write. *)
Theorem creation_checks_customer_and_inserts_atomically env customer_id s :
  fresh s ->
  (forall details,
     let (out, s') := add_employment_details env customer_id details s in
     fresh s' /\ customers s' = customers s /\ loan_rows s' = loan_rows s /\
     (~ customer_exists customer_id s ->
      out = inl (HTTPException 404 "Customer not found") /\ s' = s) /\
     (customer_exists customer_id s ->
      is_finite (EmploymentDetailsRequest.monthly_income details) = false ->
      (exists e, out = inl e) /\ s' = s) /\
     (customer_exists customer_id s ->
      forall income,
        int_of_float (EmploymentDetailsRequest.monthly_income details)
        = inr income ->
        let row := employment_row customer_id details income in
        (employment_rows s' = employment_rows s
         \/ employment_rows s' = employment_rows s ++ [row]) /\
        (writes_succeed env -> exists r, out = inr r) /\
        (add_outcome env = Succeeds -> commit_outcome env = Succeeds ->
         employment_rows s' = employment_rows s ++ [row]) /\
        (~ writes_succeed env ->
         exists msg,
           out = inl (HTTPException 500
                        ("Failed to add employment details: " ++ msg)%string)) /\
        (add_outcome env <> Succeeds \/ commit_outcome env <> Succeeds ->
         s' = s))) /\
  (forall details,
     let (out, s') := add_loan_info env customer_id details s in
     fresh s' /\ customers s' = customers s /\
     employment_rows s' = employment_rows s /\
     (~ customer_exists customer_id s ->
      out = inl (HTTPException 404 "Customer not found") /\ s' = s) /\
     (customer_exists customer_id s ->
      is_finite (LoanApplicationRequest.loan_amount details) = false ->
      (exists e, out = inl e) /\ s' = s) /\
     (customer_exists customer_id s ->
      forall amount,
        int_of_float (LoanApplicationRequest.loan_amount details)
        = inr amount ->
        let row := loan_row env customer_id details amount in
        (loan_rows s' = loan_rows s \/ loan_rows s' = loan_rows s ++ [row]) /\
        (writes_succeed env -> exists r, out = inr r) /\
        (add_outcome env = Succeeds -> commit_outcome env = Succeeds ->
         loan_rows s' = loan_rows s ++ [row]) /\
        (~ writes_succeed env ->
         exists msg,
           out = inl (HTTPException 500
                        ("Failed to add loan information: " ++ msg)%string)) /\
        (add_outcome env <> Succeeds \/ commit_outcome env <> Succeeds ->
         s' = s))).
Proof.
  intros Hf. split; intros details.
  - rewrite (add_employment_details_run env customer_id details s Hf).
    destruct (find_customer customer_id s) as [c |] eqn:Hc.
    + assert (Hex : customer_exists customer_id s)
        by (apply find_customer_exists; eauto).
      destruct (int_of_float _) as [e | income] eqn:Hi.
      * conversion_raised.
      * assert (Hfin : is_finite
                         (EmploymentDetailsRequest.monthly_income details)
                       = true) by (apply int_of_float_finite; eauto).
        write_outcomes env Hf.
    + apply find_customer_missing in Hc.
      repeat split; auto; try contradiction.
  - rewrite (add_loan_info_run env customer_id details s Hf).
    destruct (find_customer customer_id s) as [c |] eqn:Hc.
    + assert (Hex : customer_exists customer_id s)
        by (apply find_customer_exists; eauto).
      destruct (int_of_float _) as [e | amount] eqn:Hi.
      * conversion_raised.
      * assert (Hfin : is_finite
                         (LoanApplicationRequest.loan_amount details)
                       = true) by (apply int_of_float_finite; eauto).
        write_outcomes env Hf.
    + apply find_customer_missing in Hc.
      repeat split; auto; try contradiction.
Qed.

(** ** Stored amounts *)






Lemma has_fraction_finite x :
  has_fraction x -> exists n, int_of_float x = inr n.
Proof.
  intros H. apply int_of_float_finite.
  destruct x; try reflexivity; exfalso; apply (H 0); reflexivity.
Qed.

Lemma find_employment_after_insert customer_id details income s :
  (forall e, In e (employment_rows s) ->
             EmploymentInfo.Customer_ID e <> customer_id) ->
  find_employment customer_id
    (flush_row (EmploymentRow (employment_row customer_id details income)) s)
  = Some (employment_row customer_id details income).
Proof.
  intros Hnone. apply find_employment_none in Hnone.
  unfold find_employment in *. cbn [flush_row employment_rows].
  rewrite filter_app.
  destruct (filter _ (employment_rows s)); [| discriminate].
  cbn. now rewrite String.eqb_refl.
Qed.

(** C10.  An amount with a fractional part, submitted as a float for a
    stored customer when the writes succeed, is stored truncated toward
    zero: the new row holds the integer part, with the sign, of the
    submitted value, which differs from that value.  The answer echoes the
    stored integer as a float, and so does the summary of a customer who
    had no employment row before. *)
Theorem fractional_amounts_are_truncated env customer_id s :
  fresh s -> customer_exists customer_id s -> writes_succeed env ->
  (forall details,
     let x := EmploymentDetailsRequest.monthly_income details in
     is_float x -> has_fraction x ->
     exists income r s',
       int_of_float x = inr income /\
       truncation_of (value x) income /\
       ~ (inject_Z income == value x)%Q /\
       add_employment_details env customer_id details s = (inr r, s') /\
       employment_rows s'
       = employment_rows s ++ [employment_row customer_id details income] /\
       (value (EmploymentAdded.monthly_income r) == inject_Z income)%Q /\
       ((forall e, In e (employment_rows s) ->
                   EmploymentInfo.Customer_ID e <> customer_id) ->
        exists sm f,
          get_customer_summary customer_id s' = (inr sm, s') /\
          Summary.monthly_income sm = Float f /\
          (value f == inject_Z income)%Q)) /\
  (forall details,
     let x := LoanApplicationRequest.loan_amount details in
     is_float x -> has_fraction x ->
     exists amount r s',
       int_of_float x = inr amount /\
       truncation_of (value x) amount /\
       ~ (inject_Z amount == value x)%Q /\
       add_loan_info env customer_id details s = (inr r, s') /\
       loan_rows s'
       = loan_rows s ++ [loan_row env customer_id details amount] /\
       (value (LoanAdded.loan_amount r) == inject_Z amount)%Q).
Proof.
  intros Hf Hex (Ha & Hc & Hr).
  pose proof Hex as Hex'.
  apply find_customer_exists in Hex as [c Hfind].
  split; intros details x Hv Hfrac.
  - destruct (has_fraction_finite x Hfrac) as [income Hi].
    pose proof (int_of_float_fraction_small x income Hv Hi Hfrac) as Hsmall.
    pose proof (float_of_int_exact income Hsmall) as Hexact.
    exists income. eexists. eexists.
    split; [exact Hi |].
    split; [exact (int_of_float_truncates x income Hi) |].
    split; [intros Heq; apply (Hfrac income); now symmetry |].
    split.
    { rewrite (add_employment_details_run env customer_id details s Hf).
      rewrite Hfind. fold x. rewrite Hi, Ha, Hc, Hr. reflexivity. }
    split; [reflexivity |].
    split; [exact Hexact |].
    intros Hnone. eexists. exists (float_of_int income).
    split.
    { apply (get_customer_summary_found _ _ c).
      unfold find_customer in *. exact Hfind. }
    cbn [Summary.monthly_income].
    rewrite (find_employment_after_insert _ _ _ _ Hnone).
    split; [reflexivity | exact Hexact].
  - destruct (has_fraction_finite x Hfrac) as [amount Hi].
    pose proof (int_of_float_fraction_small x amount Hv Hi Hfrac) as Hsmall.
    pose proof (float_of_int_exact amount Hsmall) as Hexact.
    exists amount. eexists. eexists.
    split; [exact Hi |].
    split; [exact (int_of_float_truncates x amount Hi) |].
    split; [intros Heq; apply (Hfrac amount); now symmetry |].
    split.
    { rewrite (add_loan_info_run env customer_id details s Hf).
      rewrite Hfind. fold x. rewrite Hi, Ha, Hc, Hr. reflexivity. }
    split; [reflexivity | exact Hexact].
Qed.

(** ** Identifiers of four digits *)

Lemma digits_num_bound l :
  Forall (fun c => is_digit c = true) l ->
  0 <= digits_num l < 10 ^ Z.of_nat (List.length l).
Proof.
  induction 1 as [| c l Hc Hl IH].
  - cbn. lia.
  - rewrite digits_num_cons. cbn [List.length].
    rewrite Nat2Z.inj_succ, Z.pow_succ_r by lia.
    pose proof (is_digit_range c Hc). nia.
Qed.

Lemma compare_digit_chars c1 c2 :
  Ascii.compare c1 c2 = (digit_val c1 ?= digit_val c2).
Proof.
  unfold Ascii.compare, digit_val.
  destruct (N.compare_spec (N_of_ascii c1) (N_of_ascii c2)) as [E | E | E];
    symmetry.
  - rewrite E. apply Z.compare_refl.
  - apply Z.compare_lt_iff. lia.
  - apply Z.compare_gt_iff. lia.
Qed.

(** Digit strings of one length compare as the numbers they denote. *)
Lemma compare_digit_strings a : forall b,
  Forall (fun c => is_digit c = true) a ->
  Forall (fun c => is_digit c = true) b ->
  List.length a = List.length b ->
  String.compare (string_of_list_ascii a) (string_of_list_ascii b)
  = (digits_num a ?= digits_num b).
Proof.
  induction a as [| c1 a IH]; intros [| c2 b] Ha Hb Hlen; try discriminate.
  - reflexivity.
  - cbn [string_of_list_ascii String.compare].
    inversion Ha as [| ? ? Hc1 Ha']; inversion Hb as [| ? ? Hc2 Hb']; subst.
    injection Hlen as Hlen.
    rewrite compare_digit_chars, !digits_num_cons, <- Hlen.
    pose proof (digits_num_bound a Ha').
    pose proof (digits_num_bound b Hb') as Hbb. rewrite <- Hlen in Hbb.
    pose proof (is_digit_range c1 Hc1). pose proof (is_digit_range c2 Hc2).
    set (P := 10 ^ Z.of_nat (List.length a)) in *.
    destruct (Z.compare_spec (digit_val c1) (digit_val c2)) as [E | E | E].
    + rewrite E, (IH b Ha' Hb' Hlen).
      destruct (Z.compare_spec (digits_num a) (digits_num b)); symmetry;
        [apply Z.compare_eq_iff | apply Z.compare_lt_iff
         | apply Z.compare_gt_iff]; lia.
    + symmetry. apply Z.compare_lt_iff. nia.
    + symmetry. apply Z.compare_gt_iff. nia.
Qed.

Lemma string_leb_trans a : forall b c,
  (a <=? b)%string = true -> (b <=? c)%string = true ->
  (a <=? c)%string = true.
Proof.
  unfold String.leb.
  induction a as [| x a IH]; intros [| y b] [| z c]; cbn;
    try congruence; try reflexivity.
  unfold Ascii.compare.
  destruct (N.compare_spec (N_of_ascii x) (N_of_ascii y)),
    (N.compare_spec (N_of_ascii y) (N_of_ascii z)),
    (N.compare_spec (N_of_ascii x) (N_of_ascii z));
    try congruence; try reflexivity; try lia.
  apply IH.
Qed.

Lemma four_digit_leb id1 n1 id2 n2 :
  four_digit_id id1 n1 -> four_digit_id id2 n2 ->
  ((id1 <=? id2)%string = true <-> n1 <= n2).
Proof.
  intros (d1 & -> & L1 & A1 & <-) (d2 & -> & L2 & A2 & <-).
  unfold String.leb. cbn [append String.compare].
  change (Ascii.compare "C" "C") with Eq.
  change (Ascii.compare "U" "U") with Eq.
  change (Ascii.compare "S" "S") with Eq.
  change (Ascii.compare "T" "T") with Eq.
  cbv iota.
  rewrite (compare_digit_strings d1 d2 A1 A2) by congruence.
  destruct (Z.compare_spec (digits_num d1) (digits_num d2));
    split; intros; try reflexivity; try discriminate; lia.
Qed.

Lemma four_digit_suffix id n :
  four_digit_id id n -> int_of_str (slice_from 4 id) = inr n.
Proof.
  intros (ds & -> & Hlen & Hall & <-). cbn [append slice_from].
  apply int_of_str_digits; [assumption |].
  intros ->. discriminate Hlen.
Qed.

(** While every stored identifier has four digits, the identifier the
    query returns carries the greatest stored number. *)
Lemma latest_customer_four_digits s :
  (forall c, In c (customers s) ->
             exists n, four_digit_id (MasterCustomerData.Customer_ID c) n) ->
  customers s <> [] ->
  exists c n,
    latest_customer s = Some c /\ In c (customers s) /\
    four_digit_id (MasterCustomerData.Customer_ID c) n /\
    last_num (latest_customer s) = inr (Some n) /\
    forall c' n', In c' (customers s) ->
                  four_digit_id (MasterCustomerData.Customer_ID c') n' ->
                  n' <= n.
Proof.
  intros Hall Hne. unfold latest_customer.
  set (le := fun a b => (MasterCustomerData.Customer_ID a
                         <=? MasterCustomerData.Customer_ID b)%string).
  destruct (first (order_by_desc le (customers s))) as [c |] eqn:E.
  - apply first_order_by_max in E as [Hin Hmax].
    + destruct (Hall c Hin) as [n Hn].
      exists c, n. repeat split; auto.
      * unfold last_num. now rewrite (four_digit_suffix _ _ Hn).
      * intros c' n' Hin' Hn'.
        apply (four_digit_leb _ _ _ _ Hn' Hn). apply (Hmax c' Hin').
    + intros a b. apply String.leb_total.
    + intros a b c0. apply string_leb_trans.
  - apply first_order_by_none in E. contradiction.
Qed.

Lemma max_suffix_unique s M M' :
  max_suffix s M -> max_suffix s M' -> M = M'.
Proof.
  intros [(c & Hc & E) H] [(c' & Hc' & E') H'].
  pose proof (H c' M' Hc' E'). pose proof (H' c M Hc E). lia.
Qed.

(** On a store of four-digit identifiers the suffix the query reads is
    the greatest suffix of the population. *)
Lemma four_digit_store_max_suffix s :
  four_digit_store s -> customers s <> [] ->
  exists M,
    max_suffix s M /\ last_num (latest_customer s) = inr (Some M).
Proof.
  intros Hall Hne.
  destruct (latest_customer_four_digits s Hall Hne)
    as (c & n & _ & Hin & Hn & Hl & Hmax).
  exists n. split; [| exact Hl].
  split.
  - exists c. split; [exact Hin | now apply four_digit_suffix].
  - intros c' n' Hin' E'.
    destruct (Hall c' Hin') as [n'' Hn''].
    rewrite (four_digit_suffix _ _ Hn'') in E'. injection E' as <-.
    now apply (Hmax c' n'').
Qed.

(** While every stored identifier has four digits, a committed creation
    issues a number above every stored one, and the new identifier has
    four digits again unless that number exceeds 9999. *)
Lemma allocation_increases_within_four_digits env details s :
  fresh s -> writes_succeed env ->
  (forall c, In c (customers s) ->
             exists n, four_digit_id (MasterCustomerData.Customer_ID c) n) ->
  exists r c n,
    create_personal_details env details s
    = (inr r, mkSession (customers s ++ [c]) (employment_rows s)
                (loan_rows s) []) /\
    CustomerCreated.customer_id r = MasterCustomerData.Customer_ID c /\
    int_of_str (slice_from 4 (MasterCustomerData.Customer_ID c)) = inr n /\
    (forall c' n', In c' (customers s) ->
                   four_digit_id (MasterCustomerData.Customer_ID c') n' ->
                   n' < n) /\
    (n <= 9999 -> four_digit_id (MasterCustomerData.Customer_ID c) n).
Proof.
  intros Hf Hw Hall.
  assert (Hlast : exists last,
             last_num (latest_customer s) = inr last /\
             forall c' n', In c' (customers s) ->
                           four_digit_id (MasterCustomerData.Customer_ID c') n' ->
                           n' < new_num last).
  { destruct (customers s) as [| c0 cs] eqn:Ecs.
    - exists None. split; [apply last_num_none; exact Ecs |].
      intros c' n' [].
    - destruct (latest_customer_four_digits s) as (c & n & _ & _ & _ & Hl & Hmax).
      + rewrite Ecs. exact Hall.
      + rewrite Ecs. discriminate.
      + exists (Some n). split; [exact Hl |].
        intros c' n' Hin Hn'. rewrite Ecs in Hmax.
        specialize (Hmax c' n' Hin Hn'). cbn. lia. }
  destruct Hlast as (last & Hl & Hmax).
  destruct (create_personal_details_ok env details s last Hf Hw Hl)
    as (r & c & Hrun & Hr & Hc).
  destruct (format_04d_nonneg (new_num last))
    as (ds & Hfmt & Hds & Hnum & Hlen & Hub & Hmin).
  { pose proof (new_num_floor last). lia. }
  assert (Hid : MasterCustomerData.Customer_ID c
                = ("CUST" ++ string_of_list_ascii ds)%string).
  { rewrite Hc. unfold allocate_next_id. now rewrite Hfmt. }
  exists r, c, (new_num last).
  split; [exact Hrun |]. split; [congruence |].
  split.
  { rewrite Hid. cbn [append slice_from]. rewrite <- Hnum.
    apply int_of_str_digits; [assumption |].
    intros ->. cbn in Hlen. lia. }
  split; [exact Hmax |].
  intros H9999. exists ds. repeat split; auto.
  destruct Hmin as [H4 | Hbig]; [exact H4 |].
  destruct (Nat.eq_dec (List.length ds) 4) as [? | Hne]; [assumption |].
  exfalso.
  assert (10 ^ 4 <= 10 ^ (Z.of_nat (List.length ds) - 1))
    by (apply Z.pow_le_mono_r; lia).
  change (10 ^ 4) with 10000 in *. lia.
Qed.

(** ** Identifiers beyond four digits *)

(** C1.  The allocator applied to a suffix returns ["CUST"] followed by
    the next number in decimal, padded with zeros to four digits: 111
    without a suffix and [max (m + 1) 111] for the suffix [m], so that
    [allocate_next_id None = "CUST0111"], the suffix 150 gives
    ["CUST0151"] and the suffix 5 gives ["CUST0111"].  While every
    stored identifier has four digits, a creation issues the identifier
    the allocator returns for the greatest suffix of the population, or
    for no suffix when no customer is stored.  It does not do so for
    every population: with ["CUST9999"] and ["CUST10000"] stored the
    greatest suffix is 10000, for which the allocator returns
    ["CUST10001"], but the creation issues ["CUST10000"], an identifier
    that is already stored. *)
Theorem allocator_follows_population_maximum :
  (forall last,
     exists ds,
       allocate_next_id last = ("CUST" ++ string_of_list_ascii ds)%string /\
       Forall (fun ch => is_digit ch = true) ds /\
       digits_num ds
       = match last with
         | None => 111
         | Some m => Z.max (m + 1) 111
         end /\
       int_of_str (string_of_list_ascii ds) = inr (digits_num ds) /\
       (4 <= List.length ds)%nat /\
       (List.length ds = 4%nat
        \/ 10 ^ (Z.of_nat (List.length ds) - 1) <= digits_num ds)) /\
  (allocate_next_id None = "CUST0111"%string /\
   allocate_next_id (Some 150) = "CUST0151"%string /\
   allocate_next_id (Some 5) = "CUST0111"%string) /\
  (forall env details s,
     fresh s -> writes_succeed env -> four_digit_store s ->
     exists r c last,
       create_personal_details env details s
       = (inr r, mkSession (customers s ++ [c]) (employment_rows s)
                   (loan_rows s) []) /\
       CustomerCreated.customer_id r = allocate_next_id last /\
       MasterCustomerData.Customer_ID c = allocate_next_id last /\
       ((customers s = [] /\ last = None)
        \/ (exists M, max_suffix s M /\ last = Some M))) /\
  (max_suffix Sample.store_10000 10000 /\
   allocate_next_id (Some 10000) = "CUST10001"%string /\
   customer_exists "CUST10000" Sample.store_10000 /\
   exists r c,
     create_personal_details Sample.env Sample.details Sample.store_10000
     = (inr r, mkSession (customers Sample.store_10000 ++ [c]) [] [] []) /\
     CustomerCreated.customer_id r = "CUST10000"%string /\
     MasterCustomerData.Customer_ID c = "CUST10000"%string).
Proof.
  split; [exact allocate_next_id_digits |].
  split; [repeat split |].
  split.
  { intros env details s Hf Hw Hall.
    assert (Hlast : exists last,
               last_num (latest_customer s) = inr last /\
               ((customers s = [] /\ last = None)
                \/ (exists M, max_suffix s M /\ last = Some M))).
    { destruct (customers s) as [| c0 cs] eqn:Ecs.
      - exists None. split; [apply last_num_none; exact Ecs | left; auto].
      - destruct (four_digit_store_max_suffix s Hall) as (M & HM & Hl).
        + rewrite Ecs. discriminate.
        + exists (Some M). split; [exact Hl | right; eauto]. }
    destruct Hlast as (last & Hl & Hcases).
    destruct (create_personal_details_ok env details s last Hf Hw Hl)
      as (r & c & Hrun & Hr & Hc).
    exists r, c, last. auto. }
  split.
  { split.
    - exists (Sample.customer "CUST10000").
      split; [right; now left | reflexivity].
    - intros c n [<- | [<- | []]] E; vm_compute in E;
        injection E as <-; lia. }
  split; [reflexivity |].
  split.
  { exists (Sample.customer "CUST10000").
    split; [right; now left | reflexivity]. }
  eexists _, _. split; [vm_compute; reflexivity |]. split; reflexivity.
Qed.

(** C2.  The code takes the suffix of the greatest identifier in string
    order.  With ["CUST9999"] and ["CUST10000"] stored it reads 9999,
    although the greatest stored suffix is 10000: as strings,
    ["CUST9999"] is above ["CUST10000"]. *)
Theorem latest_customer_by_string_order :
  last_num (latest_customer Sample.store_10000) = inr (Some 9999) /\
  (exists c,
     In c (customers Sample.store_10000) /\
     int_of_str (slice_from 4 (MasterCustomerData.Customer_ID c))
     = inr 10000) /\
  ("CUST10000" <=? "CUST9999")%string = true /\
  ("CUST9999" <=? "CUST10000")%string = false.
Proof.
  split; [reflexivity |]. split; [| split; reflexivity].
  exists (Sample.customer "CUST10000").
  split; [right; now left | reflexivity].
Qed.

(** C3.  Starting from a store whose only customer is ["CUST9999"], two
    successive creations, each committed, both issue ["CUST10000"]: the
    second call repeats the number issued by the first.  Where the store
    refuses the duplicate, the second creation fails instead, on the same
    repeated identifier. *)
Theorem allocation_repeats_after_9999 :
  exists r1 s1 r2 s2,
    create_personal_details Sample.env Sample.details Sample.store_9999
    = (inr r1, s1) /\
    create_personal_details Sample.env Sample.details s1 = (inr r2, s2) /\
    CustomerCreated.customer_id r1 = "CUST10000"%string /\
    CustomerCreated.customer_id r2 = "CUST10000"%string /\
    map MasterCustomerData.Customer_ID (customers s2)
    = ["CUST9999"; "CUST10000"; "CUST10000"]%string /\
    last_num (latest_customer s1) = inr (Some 9999) /\
    allocate_next_id (Some 9999) = "CUST10000"%string /\
    create_personal_details Sample.env_duplicate_key Sample.details s1
    = (inl (HTTPException 500
              "Failed to create customer: UNIQUE constraint failed: Customer_ID"),
       s1).
Proof.
  eexists _, _, _, _.
  split; [vm_compute; reflexivity |].
  split; [vm_compute; reflexivity |].
  repeat split.
Qed.

(** ** Concrete runs *)

Example python_builtins :
  format_0d 4 111 = "0111"%string /\
  format_0d 4 10000 = "10000"%string /\
  format_0d 4 (-5) = "-005"%string /\
  int_of_str "0151" = inr 151 /\
  int_of_str " +1_000 " = inr 1000 /\
  int_of_str "1__0" = inl ValueError /\
  int_of_str "" = inl ValueError /\
  int_of_float Sample.fifty_thousand_and_three_quarters = inr 50000 /\
  int_of_float Sample.minus_five = inr (-5) /\
  int_of_float (S754_infinity false) = inl OverflowError /\
  int_of_float S754_nan = inl ValueError /\
  float_of_int 50000 = Sample.fifty_thousand /\
  isoformat (mkdate 2024 3 9) = "2024-03-09"%string.
Proof. repeat split; reflexivity. Qed.

(** White space around a number: the no-break space and the next-line
    control are stripped like the space, the separators 28 to 31 are
    not, and white space between sign and digits is refused. *)
Example int_white_space :
  int_of_str (String (ascii_of_N 160) "0150") = inr 150 /\
  int_of_str (String (ascii_of_N 133) "0150") = inr 150 /\
  int_of_str (String (ascii_of_N 9) "0150 ") = inr 150 /\
  int_of_str (String (ascii_of_N 28) "0150") = inl ValueError /\
  int_of_str (String (ascii_of_N 31) "0150") = inl ValueError /\
  int_of_str "- 5" = inl ValueError /\
  int_of_str " -5" = inr (-5) /\
  last_num
    (Some (Sample.customer ("CUST" ++ String (ascii_of_N 28) "0150")))
  = inl ValueError.
Proof. repeat split; reflexivity. Qed.

(** The end-to-end scenario on an empty store: the first customer is
    ["CUST0111"], the summary reports the income 50000.0 and one loan of
    200000.0 for the purpose ["Home"]. *)
Example end_to_end_scenario :
  fst (Sample.scenario (Sample.store []))
  = inr (Summary.mk "CUST0111" "Anita Rao" (Float Sample.fifty_thousand) None
           [ExistingLoan.mk "Home" Sample.two_hundred_thousand (Int 0) 0
              "PENDING"]).
Proof. vm_compute. reflexivity. Qed.

Lemma allocator_follows_population_maximum_witness :
  let s := Sample.store [Sample.customer "CUST0007";
                         Sample.customer "CUST0150";
                         Sample.customer "CUST0112"] in
  fresh s /\ writes_succeed Sample.env /\ four_digit_store s /\
  max_suffix s 150 /\
  exists r c,
    create_personal_details Sample.env Sample.details s
    = (inr r, mkSession (customers s ++ [c]) [] [] []) /\
    CustomerCreated.customer_id r = "CUST0151"%string /\
    MasterCustomerData.Customer_ID c = "CUST0151"%string.
Proof.
  intros s.
  assert (Hfour : four_digit_store s).
  { intros c [<- | [<- | [<- | []]]]; eexists;
      [exists ["0"; "0"; "0"; "7"]%char
      | exists ["0"; "1"; "5"; "0"]%char
      | exists ["0"; "1"; "1"; "2"]%char];
      (split; [reflexivity |]); (split; [reflexivity |]);
      (split; [repeat constructor | reflexivity]). }
  assert (Hmax : max_suffix s 150).
  { split.
    - exists (Sample.customer "CUST0150").
      split; [right; now left | reflexivity].
    - intros c n [<- | [<- | [<- | []]]] E; vm_compute in E;
        injection E as <-; lia. }
  split; [reflexivity |]. split; [repeat split |].
  split; [exact Hfour |]. split; [exact Hmax |].
  destruct allocator_follows_population_maximum as (_ & _ & Hpop & _).
  destruct (Hpop Sample.env Sample.details s eq_refl
              (conj eq_refl (conj eq_refl eq_refl)) Hfour)
    as (r & c & last & Hrun & Hr & Hc & [[Hnil _] | (M & HM & ->)]).
  - discriminate Hnil.
  - rewrite (max_suffix_unique s M 150 HM Hmax) in Hr, Hc.
    exists r, c. split; [exact Hrun |]. split; assumption.
Defined.

Lemma sample_customer_exists :
  customer_exists "CUST0111" Sample.loans_store.
Proof. eexists. split; [now left | reflexivity]. Defined.

Lemma summary_lists_existing_loans_witness :
  customer_exists "CUST0111" Sample.loans_store /\
  exists r,
    get_customer_summary "CUST0111" Sample.loans_store
    = (inr r, Sample.loans_store) /\
    map ExistingLoan.amount (Summary.existing_loans r)
    = [float_of_int 200000].
Proof.
  split; [exact sample_customer_exists |].
  destruct (summary_lists_existing_loans "CUST0111"%string
              Sample.loans_store sample_customer_exists)
    as (r & loans & Hrun & _).
  exists r. split; [exact Hrun |].
  vm_compute in Hrun. inversion Hrun. reflexivity.
Defined.

Lemma summary_credit_score_from_latest_application_witness :
  customer_exists "CUST0111" Sample.loans_store /\
  exists r,
    get_customer_summary "CUST0111" Sample.loans_store
    = (inr r, Sample.loans_store) /\
    Summary.credit_score r = Some 710.
Proof.
  split; [exact sample_customer_exists |].
  destruct (summary_credit_score_from_latest_application "CUST0111"%string
              Sample.loans_store sample_customer_exists)
    as (r & Hrun & _).
  exists r. split; [exact Hrun |].
  vm_compute in Hrun. inversion Hrun. reflexivity.
Defined.

Lemma summary_tenure_years_and_emi_witness :
  customer_exists "CUST0111" Sample.loans_store /\
  exists r,
    get_customer_summary "CUST0111" Sample.loans_store
    = (inr r, Sample.loans_store) /\
    map ExistingLoan.tenure_years (Summary.existing_loans r) = [1] /\
    map ExistingLoan.monthly_emi (Summary.existing_loans r) = [Int 0].
Proof.
  split; [exact sample_customer_exists |].
  destruct (summary_tenure_years_and_emi "CUST0111"%string
              Sample.loans_store sample_customer_exists)
    as (r & Hrun & _).
  exists r. split; [exact Hrun |].
  vm_compute in Hrun. inversion Hrun. split; reflexivity.
Defined.

Lemma sample_store_customer_exists :
  customer_exists "CUST0111" (Sample.store [Sample.customer "CUST0111"]).
Proof. eexists. split; [now left | reflexivity]. Defined.

Lemma sample_has_fraction :
  has_fraction Sample.fifty_thousand_and_three_quarters.
Proof.
  intros z. unfold Sample.fifty_thousand_and_three_quarters, value, Qeq.
  cbn. lia.
Defined.

Lemma creation_checks_customer_and_inserts_atomically_witness :
  fresh (Sample.store [Sample.customer "CUST0111"]) /\
  (let (out, s') :=
     add_employment_details Sample.env_commit_fails "CUST0111"
       (EmploymentDetailsRequest.mk "Clerk"
          Sample.fifty_thousand_and_three_quarters)
       (Sample.store [Sample.customer "CUST0111"]) in
   fresh s' /\ s' = Sample.store [Sample.customer "CUST0111"] /\
   exists msg,
     out = inl (HTTPException 500
                  ("Failed to add employment details: " ++ msg)%string)).
Proof.
  split; [reflexivity |].
  pose proof
    (proj1 (creation_checks_customer_and_inserts_atomically
              Sample.env_commit_fails "CUST0111"%string
              (Sample.store [Sample.customer "CUST0111"]) eq_refl)
       (EmploymentDetailsRequest.mk "Clerk"
          Sample.fifty_thousand_and_three_quarters)) as H.
  destruct (add_employment_details _ _ _ _) as [out s'].
  destruct H as (Hfresh & _ & _ & _ & _ & Hrun).
  destruct (Hrun sample_store_customer_exists 50000 eq_refl)
    as (_ & _ & _ & Hfail & Hsame).
  split; [exact Hfresh |]. split.
  - apply Hsame. right. discriminate.
  - apply Hfail. intros (_ & Hc & _). discriminate Hc.
Defined.

Lemma summary_not_found_and_empty_profile_witness :
  customer_exists "CUST0111" (Sample.store [Sample.customer "CUST0111"]) /\
  exists r,
    get_customer_summary "CUST0111"
      (Sample.store [Sample.customer "CUST0111"])
    = (inr r, Sample.store [Sample.customer "CUST0111"]) /\
    Summary.monthly_income r = Int 0 /\
    Summary.existing_loans r = [] /\
    Summary.credit_score r = None.
Proof.
  split; [exact sample_store_customer_exists |].
  destruct (proj2 (summary_not_found_and_empty_profile "CUST0111"%string
                     (Sample.store [Sample.customer "CUST0111"]))
              sample_store_customer_exists
              (fun e (H : In e []) => match H with end)
              (fun l (H : In l []) => match H with end))
    as (r & Hrun & Hinc & Hloans & Hscore).
  exists r. split; [exact Hrun |]. split; [exact Hinc |].
  split; [exact Hloans |].
  apply Hscore. intros l [].
Defined.


Lemma fractional_amounts_are_truncated_witness :
  fresh (Sample.store [Sample.customer "CUST0111"]) /\
  customer_exists "CUST0111" (Sample.store [Sample.customer "CUST0111"]) /\
  writes_succeed Sample.env /\
  is_float Sample.fifty_thousand_and_three_quarters /\
  has_fraction Sample.fifty_thousand_and_three_quarters /\
  exists r s',
    add_employment_details Sample.env "CUST0111"
      (EmploymentDetailsRequest.mk "Clerk"
         Sample.fifty_thousand_and_three_quarters)
      (Sample.store [Sample.customer "CUST0111"])
    = (inr r, s') /\
    employment_rows s'
    = [EmploymentInfo.mk "CUST0111" "Clerk" 50000 "Active" "Pending"] /\
    (value (EmploymentAdded.monthly_income r) == inject_Z 50000)%Q.
Proof.
  split; [reflexivity |].
  split; [exact sample_store_customer_exists |].
  split; [repeat split |].
  split; [reflexivity |].
  split; [exact sample_has_fraction |].
  destruct (proj1 (fractional_amounts_are_truncated Sample.env
                     "CUST0111"%string
                     (Sample.store [Sample.customer "CUST0111"])
                     eq_refl sample_store_customer_exists
                     (conj eq_refl (conj eq_refl eq_refl)))
              (EmploymentDetailsRequest.mk "Clerk"
                 Sample.fifty_thousand_and_three_quarters)
              eq_refl sample_has_fraction)
    as (income & r & s' & Hi & _ & _ & Hrun & Hrows & Hecho & _).
  assert (Hinc : income = 50000).
  { cbn in Hi. inversion Hi. reflexivity. }
  subst income.
  exists r, s'. split; [exact Hrun |]. split; [exact Hrows | exact Hecho].
Defined.

(** * Further properties of the endpoints *)

(** ** Patterns of the search *)

Module SqlFacts.
Import Sql.

Lemma list_ascii_of_string_app a b :
  list_ascii_of_string (a ++ b)
  = (list_ascii_of_string a ++ list_ascii_of_string b)%list.
Proof. induction a as [| c a IH]; cbn; [reflexivity | now rewrite IH]. Qed.

Lemma lower_keeps_wildcards c :
  (lower c =? "%")%char = (c =? "%")%char /\
  (lower c =? "_")%char = (c =? "_")%char.
Proof.
  destruct c as [b0 b1 b2 b3 b4 b5 b6 b7].
  destruct b0, b1, b2, b3, b4, b5, b6, b7; split; reflexivity.
Qed.

Lemma like_any_run p v :
  like ("%"%char :: p) v = true
  <-> exists v1 v2, v = (v1 ++ v2)%list /\ like p v2 = true.
Proof.
  cbn [like]. change ("%" =? "%")%char with true. cbv iota.
  induction v as [| c v IH].
  - rewrite orb_false_r. split.
    + intros H. exists [], []. auto.
    + intros (v1 & v2 & Hv & H). symmetry in Hv.
      apply app_eq_nil in Hv as [-> ->]. exact H.
  - rewrite orb_true_iff. split.
    + intros [H | H].
      * exists [], (c :: v). auto.
      * apply IH in H as (v1 & v2 & -> & H). exists (c :: v1), v2. auto.
    + intros (v1 & v2 & Hv & H). destruct v1 as [| d v1].
      * left. cbn in Hv. now subst.
      * right. apply IH. injection Hv as -> ->. eauto.
Qed.

Lemma like_plain_prefix q : forall p v,
  Forall plain_char q ->
  (like (q ++ p) v = true
   <-> exists v2, v = (q ++ v2)%list /\ like p v2 = true).
Proof.
  induction q as [| c q IH]; intros p v Hq.
  - cbn [app]. split; [eauto | intros (v2 & -> & H); exact H].
  - inversion Hq as [| ? ? [Hc1 Hc2] Hq']; subst.
    cbn [app like]. rewrite Hc1, Hc2. cbn [orb].
    destruct v as [| d v].
    + split; [discriminate | intros (v2 & Hv & _); discriminate].
    + rewrite andb_true_iff, (IH p v Hq'), Ascii.eqb_eq. split.
      * intros (-> & v2 & -> & H). eauto.
      * intros (v2 & Hv & H). injection Hv as -> ->. eauto.
Qed.

Lemma like_underscores k : forall p v,
  like (repeat "_"%char k ++ p) v = true
  <-> exists v1 v2, v = (v1 ++ v2)%list /\ List.length v1 = k /\ like p v2 = true.
Proof.
  induction k as [| k IH]; intros p v.
  - cbn [repeat app]. split.
    + intros H. exists [], v. auto.
    + intros (v1 & v2 & -> & Hl & H). destruct v1; [exact H | discriminate].
  - cbn [repeat app like]. change ("_" =? "%")%char with false.
    change ("_" =? "_")%char with true. cbn [orb]. cbv iota.
    destruct v as [| d v].
    + split; [discriminate |].
      intros (v1 & v2 & Hv & Hl & _). destruct v1; discriminate.
    + cbn [andb]. rewrite (IH p v). split.
      * intros (v1 & v2 & -> & Hl & H). exists (d :: v1), v2. cbn. auto.
      * intros (v1 & v2 & Hv & Hl & H). destruct v1 as [| e v1]; [discriminate |].
        injection Hv as -> ->. injection Hl as Hl. eauto.
Qed.

Lemma like_percent_only v : like ["%"%char] v = true.
Proof. apply like_any_run. exists v, []. rewrite app_nil_r. auto. Qed.

Lemma literal_lower_plain l :
  Forall (fun c => literal_char c = true) l -> Forall plain_char (map lower l).
Proof.
  intros H. apply Forall_forall. intros c Hc.
  apply in_map_iff in Hc as (d & <- & Hd).
  rewrite Forall_forall in H. specialize (H d Hd).
  unfold literal_char in H. apply negb_true_iff in H.
  apply orb_false_iff in H as [H _]. apply orb_false_iff in H as [H _].
  apply orb_false_iff in H as [H1 H2].
  destruct (lower_keeps_wildcards d) as [E1 E2].
  split; congruence.
Qed.

(** A term without wildcards matches the names that contain it. *)
Lemma ilike_contains name term :
  literal_term term ->
  (ilike name ("%" ++ term ++ "%") = true
   <-> contains_ignoring_case name term).
Proof.
  intros Hlit. unfold ilike, contains_ignoring_case.
  rewrite !list_ascii_of_string_app, !map_app.
  cbn [list_ascii_of_string map app].
  change (lower "%") with "%"%char.
  rewrite like_any_run. split.
  - intros (v1 & v2 & Hv & H).
    apply (like_plain_prefix _ _ _ (literal_lower_plain _ Hlit)) in H
      as (v3 & -> & _).
    eauto.
  - intros (before & after & Hv). exists before. eexists. split; [exact Hv |].
    apply (like_plain_prefix _ _ _ (literal_lower_plain _ Hlit)).
    exists after. split; [reflexivity | apply like_percent_only].
Qed.

End SqlFacts.

(** ** The customer search *)

Import SqlFacts.

Lemma get_customer_id_by_name_run name s :
  get_customer_id_by_name name s
  = match search_customers name s with
    | [] =>
        (inl (HTTPException 404
                ("No customers found with name containing '" ++ name ++ "'")%string),
         s)
    | hits =>
        (inr (SearchResult.mk name (Z.of_nat (List.length hits))
                (map format_match hits)),
         s)
    end.
Proof.
  unfold get_customer_id_by_name. unfold_py.
  destruct (search_customers name s); [reflexivity |].
  now rewrite length_map.
Qed.


Lemma kept_in_order_singleton {A} (l : list A) x :
  kept_in_order l [x] -> l = [] \/ l = [x].
Proof.
  intros H. inversion H as [| y l' t Ht | y l' t Ht]; subst;
    inversion Ht; subst; auto.
Qed.


Lemma filter_all {A} (p : A -> bool) l :
  (forall x, In x l -> p x = true) -> filter p l = l.
Proof.
  induction l as [| x l IH]; intros H; cbn; [reflexivity |].
  rewrite (H x) by now left. f_equal. apply IH. intros y Hy. apply H.
  now right.
Qed.

(** X2.  The empty search term selects every stored customer: the search
    answers with all of them in store order, and fails with status 404
    only on a store without customers. *)
Theorem search_with_empty_term_lists_everyone s :
  (customers s = [] ->
   get_customer_id_by_name "" s
   = (inl (HTTPException 404 "No customers found with name containing ''"),
      s)) /\
  (customers s <> [] ->
   get_customer_id_by_name "" s
   = (inr (SearchResult.mk "" (Z.of_nat (List.length (customers s)))
             (map format_match (customers s))),
      s)).
Proof.
  rewrite get_customer_id_by_name_run.
  assert (Hall : search_customers "" s = customers s).
  { unfold search_customers. apply filter_all. intros c _.
    apply ilike_contains; [constructor |].
    exists [], (map Sql.lower
                  (list_ascii_of_string (MasterCustomerData.Name c))).
    reflexivity. }
  rewrite Hall.
  destruct (customers s); split; intros H; try congruence; reflexivity.
Qed.

Lemma search_with_empty_term_lists_everyone_witness :
  customers Sample.store_10000 <> [] /\
  exists r,
    get_customer_id_by_name "" Sample.store_10000
    = (inr r, Sample.store_10000) /\
    SearchResult.matches_found r = 2.
Proof.
  assert (Hne : customers Sample.store_10000 <> []) by discriminate.
  split; [exact Hne |].
  eexists. split.
  - exact (proj2 (search_with_empty_term_lists_everyone Sample.store_10000)
             Hne).
  - reflexivity.
Defined.

Lemma lowered_length s :
  List.length (map Sql.lower (list_ascii_of_string s)) = String.length s.
Proof.
  rewrite length_map. induction s as [| c s IH]; cbn; congruence.
Qed.

Lemma list_ascii_of_underscores k :
  map Sql.lower
    (list_ascii_of_string (string_of_list_ascii (repeat "_"%char k)))
  = repeat "_"%char k.
Proof.
  rewrite list_ascii_of_string_of_list_ascii.
  induction k as [| k IH]; cbn; [reflexivity |]. now rewrite IH.
Qed.

(** X3.  The search does not escape the wildcards of its term: on a
    store whose names are made of ASCII characters, a term of [k]
    underscores selects exactly the stored customers whose name has at
    least [k] characters, whatever those characters are. *)
Theorem search_underscores_match_any_characters k s :
  ascii_names s ->
  let term := string_of_list_ascii (repeat "_"%char k) in
  exists hits,
    kept_in_order hits (customers s) /\
    (forall c, In c hits
               <-> In c (customers s) /\
                   (k <= String.length (MasterCustomerData.Name c))%nat) /\
    (hits = [] ->
     exists detail,
       get_customer_id_by_name term s = (inl (HTTPException 404 detail), s)) /\
    (hits <> [] ->
     get_customer_id_by_name term s
     = (inr (SearchResult.mk term (Z.of_nat (List.length hits))
               (map format_match hits)),
        s)).
Proof.
  intros _ term. exists (search_customers term s).
  split; [apply filter_kept_in_order |].
  split.
  { intros c. unfold search_customers. rewrite filter_In.
    assert (Hm : Sql.ilike (MasterCustomerData.Name c)
                   ("%" ++ term ++ "%")%string = true
                 <-> (k <= String.length (MasterCustomerData.Name c))%nat).
    { unfold Sql.ilike, term.
      rewrite !list_ascii_of_string_app, !map_app, list_ascii_of_underscores.
      cbn [list_ascii_of_string map app].
      change (Sql.lower "%") with "%"%char.
      rewrite like_any_run. rewrite <- lowered_length.
      set (v := map Sql.lower
                  (list_ascii_of_string (MasterCustomerData.Name c))).
      split.
      - intros (v1 & v2 & Hv & H).
        apply like_underscores in H as (v3 & v4 & -> & Hl & _).
        rewrite Hv, !length_app. lia.
      - intros Hk. exists [], v. split; [reflexivity |].
        apply like_underscores.
        exists (firstn k v), (skipn k v).
        split; [symmetry; apply firstn_skipn |].
        split; [apply firstn_length_le; exact Hk | apply like_percent_only]. }
    now rewrite Hm. }
  rewrite get_customer_id_by_name_run.
  destruct (search_customers term s); split; try congruence; eauto.
Qed.

Lemma search_underscores_match_any_characters_witness :
  ascii_names (Sample.store [Sample.customer "CUST0111"]) /\
  exists r,
    get_customer_id_by_name "_____"
      (Sample.store [Sample.customer "CUST0111"])
    = (inr r, Sample.store [Sample.customer "CUST0111"]) /\
    SearchResult.matches_found r = 1.
Proof.
  assert (Hascii : ascii_names (Sample.store [Sample.customer "CUST0111"])).
  { intros c [<- | []]. reflexivity. }
  split; [exact Hascii |].
  destruct (search_underscores_match_any_characters 5
              (Sample.store [Sample.customer "CUST0111"]) Hascii)
    as (hits & Hkept & Hin & _ & Hrun).
  assert (Hne : hits <> []).
  { intros ->. apply (Hin (Sample.customer "CUST0111")).
    split; [now left | cbn; lia]. }
  specialize (Hrun Hne).
  destruct (kept_in_order_singleton _ _ Hkept) as [-> | ->];
    [contradiction |].
  eexists. split; [exact Hrun | reflexivity].
Defined.

(** ** Creating customers *)

Lemma create_personal_details_run env details s :
  fresh s ->
  create_personal_details env details s
  = match last_num (latest_customer s) with
    | inl e => (inl e, s)
    | inr last =>
        let customer_id := allocate_next_id last in
        let row := customer_row env details customer_id in
        let label := "Failed to create customer: "%string in
        match add_outcome env, commit_outcome env, refresh_outcome env with
        | Succeeds, Succeeds, Succeeds =>
            (inr (CustomerCreated.mk "Customer created successfully"
                    customer_id
                    (PersonalDetailsRequest.name details)
                    (PersonalDetailsRequest.email details)
                    (str_of_int (PersonalDetailsRequest.mobile details))
                    (isoformat (today env))),
             flush_row (CustomerRow row) s)
        | Succeeds, Succeeds, Fails msg =>
            (inl (HTTPException 500 (label ++ msg)%string),
             flush_row (CustomerRow row) s)
        | Succeeds, Fails msg, _ | Fails msg, _, _ =>
            (inl (HTTPException 500 (label ++ msg)%string), s)
        end
    end.
Proof.
  unfold fresh. intros Hp. destruct s as [cs es ls ps]. cbn in Hp. subst ps.
  unfold create_personal_details. unfold_py.
  cbn [customers employment_rows loan_rows pending].
  destruct (last_num _) as [e | last]; [reflexivity |].
  destruct (add_outcome env), (commit_outcome env), (refresh_outcome env);
    reflexivity.
Qed.

(** X4.  Creating a customer is all or nothing.  On a fresh session
    whose stored identifiers are made of ASCII characters the
    employment and loan tables are untouched and nothing is left pending.
    When the latest identifier yields a suffix, the customer table gains
    exactly the one new row, carrying the allocated identifier, as soon as
    the add and the commit succeed, and is unchanged when either fails;
    the endpoint answers with that identifier when the refresh succeeds
    too, and otherwise reports status 500 with the store's message, also
    when the commit had already stored the customer. *)
Theorem customer_creation_is_all_or_nothing env details s last :
  fresh s -> ascii_identifiers s ->
  last_num (latest_customer s) = inr last ->
  let row := customer_row env details (allocate_next_id last) in
  let (out, s') := create_personal_details env details s in
  fresh s' /\
  employment_rows s' = employment_rows s /\ loan_rows s' = loan_rows s /\
  (add_outcome env = Succeeds -> commit_outcome env = Succeeds ->
   customers s' = customers s ++ [row]) /\
  (add_outcome env <> Succeeds \/ commit_outcome env <> Succeeds -> s' = s) /\
  (writes_succeed env ->
   exists r, out = inr r /\
             CustomerCreated.customer_id r = allocate_next_id last) /\
  (~ writes_succeed env ->
   exists msg,
     out = inl (HTTPException 500
                  ("Failed to create customer: " ++ msg)%string)).
Proof.
  intros Hf _ Hl row.
  rewrite (create_personal_details_run env details s Hf), Hl.
  unfold writes_succeed. cbn zeta. fold row.
  destruct (add_outcome env), (commit_outcome env), (refresh_outcome env);
    (split; [try apply flush_row_fresh; exact Hf |]);
    (split; [reflexivity |]); (split; [reflexivity |]);
    cbn [flush_row customers];
    repeat split; eauto;
    try (intros; discriminate);
    try (intros [? | ?]; congruence);
    try (intros (? & ? & ?); discriminate);
    try (let Hn := fresh "Hn" in
         intros Hn; exfalso; apply Hn; repeat split; reflexivity).
Qed.

Lemma customer_creation_is_all_or_nothing_witness :
  fresh Sample.store_9999 /\ ascii_identifiers Sample.store_9999 /\
  last_num (latest_customer Sample.store_9999) = inr (Some 9999) /\
  (let (out, s') :=
     create_personal_details
       (mkEnv (mkdate 2024 6 1) Succeeds Succeeds (Fails "connection lost"))
       Sample.details Sample.store_9999 in
   map MasterCustomerData.Customer_ID (customers s')
   = ["CUST9999"; "CUST10000"]%string /\
   exists msg,
     out = inl (HTTPException 500
                  ("Failed to create customer: " ++ msg)%string)).
Proof.
  assert (Hascii : ascii_identifiers Sample.store_9999).
  { intros c [<- | []]. reflexivity. }
  split; [reflexivity |]. split; [exact Hascii |]. split; [reflexivity |].
  pose proof
    (customer_creation_is_all_or_nothing
       (mkEnv (mkdate 2024 6 1) Succeeds Succeeds (Fails "connection lost"))
       Sample.details Sample.store_9999 (Some 9999) eq_refl Hascii eq_refl)
    as H.
  cbv zeta in H.
  destruct (create_personal_details _ _ _) as [out s'].
  destruct H as (_ & _ & _ & Hrows & _ & _ & Hfail).
  split.
  - rewrite (Hrows eq_refl eq_refl). reflexivity.
  - apply Hfail. intros (_ & _ & Hr). discriminate Hr.
Defined.

Lemma lstrip_ends_with l c :
  is_space c = false -> exists l', lstrip (l ++ [c]) = l' ++ [c].
Proof.
  intros Hc. induction l as [| x l IH]; cbn.
  - rewrite Hc. now exists [].
  - destruct (is_space x); [exact IH | now exists (x :: l)].
Qed.

Lemma strip_keeps_first c l :
  is_space c = false -> exists l', strip (c :: l) = c :: l'.
Proof.
  intros Hc. unfold strip. cbn [lstrip]. rewrite Hc. cbn [rev].
  destruct (lstrip_ends_with (rev l) c Hc) as [l' ->].
  rewrite rev_app_distr. cbn. eauto.
Qed.

(** [int()] rejects a string that starts with a letter or any other
    ASCII character from code 65 on. *)
Lemma int_of_str_letter_first c rest :
  (65 <= N_of_ascii c < 128)%N ->
  int_of_str (String c rest) = inl ValueError.
Proof.
  intros Hc. unfold int_of_str. cbn [list_ascii_of_string].
  assert (Hs : is_space c = false) by (apply not_space_between; lia).
  assert (Hd : is_digit c = false).
  { unfold is_digit. apply andb_false_iff. right. apply N.leb_gt. lia. }
  assert (Hm : (c =? "-")%char = false).
  { apply Ascii.eqb_neq. intros ->. cbn in Hc. lia. }
  assert (Hp : (c =? "+")%char = false).
  { apply Ascii.eqb_neq. intros ->. cbn in Hc. lia. }
  destruct (strip_keeps_first c (list_ascii_of_string rest) Hs) as [l' ->].
  rewrite Hm, Hp. cbn [digits_value]. rewrite Hd.
  destruct (c =? "_")%char; reflexivity.
Qed.

Lemma leb_after_prefix c rest other :
  (("CUST" ++ String c rest) <=? ("CUST" ++ other))%string = true ->
  exists c' rest',
    other = String c' rest' /\ (N_of_ascii c <= N_of_ascii c')%N.
Proof.
  unfold String.leb. cbn [append String.compare].
  change (Ascii.compare "C" "C") with Eq.
  change (Ascii.compare "U" "U") with Eq.
  change (Ascii.compare "S" "S") with Eq.
  change (Ascii.compare "T" "T") with Eq.
  cbv iota.
  destruct other as [| c' rest']; cbn [String.compare]; [discriminate |].
  intros H. exists c', rest'. split; [reflexivity |].
  unfold Ascii.compare in H.
  destruct (N.compare_spec (N_of_ascii c) (N_of_ascii c'));
    [lia | lia | discriminate H].
Qed.

Lemma ascii_only_after_prefix c rest :
  ascii_only ("CUST" ++ String c rest) -> (N_of_ascii c < 128)%N.
Proof.
  unfold ascii_only. cbn [append list_ascii_of_string forallb].
  intros H.
  do 4 (apply andb_true_iff in H as [_ H]).
  apply andb_true_iff in H as [H _]. now apply N.ltb_lt.
Qed.

Lemma is_letter_from_65 c : is_letter c = true -> (65 <= N_of_ascii c)%N.
Proof.
  unfold is_letter. intros H.
  apply orb_true_iff in H as [H | H];
    apply andb_true_iff in H as [H _]; apply N.leb_le in H; lia.
Qed.

(** X5.  One stored identifier that goes on with a letter after ["CUST"]
    blocks every later creation: when all stored identifiers are made of
    ASCII characters and start with ["CUST"], such an identifier sorts
    above the numbered ones, the suffix the allocator reads is not a
    number, and every creation request fails with [ValueError] before
    any write, whatever the request and the state of the store's
    writes. *)
Theorem letter_suffix_blocks_creation env details s :
  ascii_identifiers s ->
  (forall c, In c (customers s) ->
             has_prefix_cust (MasterCustomerData.Customer_ID c)) ->
  (exists c, In c (customers s) /\
             letter_after_prefix (MasterCustomerData.Customer_ID c)) ->
  create_personal_details env details s = (inl ValueError, s).
Proof.
  intros Hascii Hall (c0 & Hin0 & L & r & Hid0 & HL).
  apply is_letter_from_65 in HL.
  assert (Hlast : last_num (latest_customer s) = inl ValueError).
  { unfold latest_customer.
    set (le := fun a b => (MasterCustomerData.Customer_ID a
                           <=? MasterCustomerData.Customer_ID b)%string).
    destruct (first (order_by_desc le (customers s))) as [m |] eqn:E.
    - apply first_order_by_max in E as [Hin Hmax].
      + destruct (Hall m Hin) as [m' Hm].
        specialize (Hmax c0 Hin0). unfold le in Hmax.
        pose proof (Hascii m Hin) as Ham.
        rewrite Hid0, Hm in Hmax. rewrite Hm in Ham.
        apply leb_after_prefix in Hmax as (c' & r' & -> & Hc').
        apply ascii_only_after_prefix in Ham.
        unfold last_num. rewrite Hm. cbn [append slice_from].
        rewrite int_of_str_letter_first by lia. reflexivity.
      + intros a b. apply String.leb_total.
      + intros a b c. apply string_leb_trans.
    - apply first_order_by_none in E. rewrite E in Hin0. contradiction. }
  unfold create_personal_details. unfold_py. now rewrite Hlast.
Qed.

Lemma letter_suffix_blocks_creation_witness :
  let s := Sample.store [Sample.customer "CUST0111";
                         Sample.customer "CUSTA001"] in
  ascii_identifiers s /\
  (forall c, In c (customers s) ->
             has_prefix_cust (MasterCustomerData.Customer_ID c)) /\
  letter_after_prefix "CUSTA001" /\
  create_personal_details Sample.env_commit_fails Sample.details s
  = (inl ValueError, s).
Proof.
  intros s.
  assert (Hascii : ascii_identifiers s).
  { intros c [<- | [<- | []]]; reflexivity. }
  assert (Hall : forall c,
             In c (customers s) ->
             has_prefix_cust (MasterCustomerData.Customer_ID c)).
  { intros c [<- | [<- | []]]; eexists; reflexivity. }
  assert (Hbad : letter_after_prefix "CUSTA001").
  { exists "A"%char, "001"%string. split; reflexivity. }
  split; [exact Hascii |]. split; [exact Hall |]. split; [exact Hbad |].
  apply (letter_suffix_blocks_creation Sample.env_commit_fails Sample.details
           s Hascii Hall).
  exists (Sample.customer "CUSTA001"). split; [right; now left | exact Hbad].
Defined.

(** ** Successive creations *)

Lemma four_digit_id_unique id n n' :
  four_digit_id id n -> four_digit_id id n' -> n = n'.
Proof.
  intros H H'. apply four_digit_suffix in H. apply four_digit_suffix in H'.
  congruence.
Qed.

Lemma allocate_four_digit last :
  new_num last <= 9999 ->
  four_digit_id (allocate_next_id last) (new_num last).
Proof.
  intros Hle.
  destruct (format_04d_nonneg (new_num last))
    as (ds & Hfmt & Hds & Hnum & Hlen & _ & Hmin).
  { pose proof (new_num_floor last). lia. }
  exists ds. unfold allocate_next_id. rewrite Hfmt.
  repeat split; auto.
  destruct Hmin as [H4 | Hbig]; [exact H4 |].
  destruct (Nat.eq_dec (List.length ds) 4) as [? | Hne]; [assumption |].
  exfalso.
  assert (10 ^ 4 <= 10 ^ (Z.of_nat (List.length ds) - 1))
    by (apply Z.pow_le_mono_r; lia).
  change (10 ^ 4) with 10000 in *. lia.
Qed.

Lemma Forall2_In_left {A B} (R : A -> B -> Prop) l l' x :
  Forall2 R l l' -> In x l -> exists y, In y l' /\ R x y.
Proof.
  induction 1 as [| a b l l' Hab _ IH]; intros Hin; [contradiction |].
  destruct Hin as [<- | Hin].
  - exists b. split; [now left | exact Hab].
  - destruct (IH Hin) as (y & Hy & HR). exists y. split; [now right | exact HR].
Qed.

Lemma Forall2_In_right {A B} (R : A -> B -> Prop) l l' y :
  Forall2 R l l' -> In y l' -> exists x, In x l /\ R x y.
Proof.
  induction 1 as [| a b l l' Hab _ IH]; intros Hin; [contradiction |].
  destruct Hin as [<- | Hin].
  - exists a. split; [now left | exact Hab].
  - destruct (IH Hin) as (x & Hx & HR). exists x. split; [now right | exact HR].
Qed.

(** On a store numbered 111 .. 110 + j the allocator reads 110 + j. *)
Lemma numbered_next j s :
  numbered_from_111 j s ->
  exists last,
    last_num (latest_customer s) = inr last /\
    new_num last = 111 + Z.of_nat j.
Proof.
  unfold numbered_from_111. intros Hnum.
  destruct j as [| j].
  - cbn in Hnum. inversion Hnum as [Hc |]. exists None.
    split; [apply last_num_none; congruence | reflexivity].
  - assert (Hne : customers s <> []).
    { intros E. rewrite E in Hnum. inversion Hnum. }
    assert (Hfour : forall c, In c (customers s) ->
              exists n, four_digit_id (MasterCustomerData.Customer_ID c) n).
    { intros c Hc. destruct (Forall2_In_left _ _ _ _ Hnum Hc) as (i & _ & Hi).
      eauto. }
    destruct (latest_customer_four_digits s Hfour Hne)
      as (c & n & _ & Hin & Hn & Hlast & Hmax).
    exists (Some n). split; [exact Hlast |].
    destruct (Forall2_In_left _ _ _ _ Hnum Hin) as (i & Hi & Hci).
    apply in_seq in Hi.
    pose proof (four_digit_id_unique _ _ _ Hn Hci) as Hni.
    assert (Htop : In j (seq 0 (S j))) by (apply in_seq; lia).
    destruct (Forall2_In_right _ _ _ _ Hnum Htop) as (c' & Hin' & Hc').
    specialize (Hmax c' _ Hin' Hc'). cbn [new_num]. lia.
Qed.

Lemma create_all_numbered env : forall requests j s,
  fresh s -> writes_succeed env -> numbered_from_111 j s ->
  Z.of_nat (j + List.length requests) <= 9889 ->
  exists rs s',
    create_all env requests s = (inr rs, s') /\
    fresh s' /\
    numbered_from_111 (j + List.length requests) s' /\
    Forall2
      (fun r i =>
         four_digit_id (CustomerCreated.customer_id r) (111 + Z.of_nat i))
      rs (seq j (List.length requests)) /\
    map MasterCustomerData.Name (customers s')
    = map MasterCustomerData.Name (customers s)
      ++ map PersonalDetailsRequest.name requests /\
    employment_rows s' = employment_rows s /\ loan_rows s' = loan_rows s.
Proof.
  induction requests as [| d requests IH]; intros j s Hf Hw Hnum Hlen.
  - exists [], s. cbn [create_all List.length seq map]. unfold ret.
    rewrite Nat.add_0_r, app_nil_r. repeat split; auto.
  - cbn [List.length] in Hlen.
    destruct (numbered_next j s Hnum) as (last & Hlast & Hnew).
    pose proof (create_personal_details_run env d s Hf) as Hrun.
    rewrite Hlast in Hrun. destruct Hw as (Ha & Hc & Hr).
    rewrite Ha, Hc, Hr in Hrun. cbv zeta in Hrun.
    set (row := customer_row env d (allocate_next_id last)) in *.
    assert (Hid : four_digit_id (allocate_next_id last)
                    (111 + Z.of_nat j)).
    { rewrite <- Hnew. apply allocate_four_digit. lia. }
    assert (Hnum1 : numbered_from_111 (S j) (flush_row (CustomerRow row) s)).
    { unfold numbered_from_111. cbn [flush_row customers].
      rewrite seq_S. cbn [Nat.add]. apply Forall2_app; [exact Hnum |].
      constructor; [exact Hid | constructor]. }
    destruct (IH (S j) (flush_row (CustomerRow row) s)
                (flush_row_fresh _ _ Hf) (conj Ha (conj Hc Hr)) Hnum1
                ltac:(lia))
      as (rs & s' & Hall & Hf' & Hnum' & Hrs & Hnames & Hemp & Hloans).
    eexists (_ :: rs), s'.
    split.
    { cbn [create_all]. unfold bind at 1. rewrite Hrun.
      unfold bind at 1. rewrite Hall. reflexivity. }
    split; [exact Hf' |].
    split.
    { cbn [List.length].
      now replace (j + S (List.length requests))%nat
        with (S j + List.length requests)%nat by lia. }
    split.
    { cbn [List.length seq]. constructor; [exact Hid | exact Hrs]. }
    split.
    { rewrite Hnames. cbn [flush_row customers map]. rewrite map_app.
      rewrite <- app_assoc. reflexivity. }
    split; [rewrite Hemp | rewrite Hloans]; reflexivity.
Qed.

(** X6.  Starting on a store without customers, any run of up to 9889
    creation requests whose writes succeed issues the consecutive numbers
    111, 112, ... in four-digit identifiers, one per request and in the
    order of the requests; the store then holds exactly these customers,
    in that order, under the names submitted. *)
Theorem creations_from_empty_store_are_consecutive env requests s :
  fresh s -> customers s = [] -> writes_succeed env ->
  Z.of_nat (List.length requests) <= 9889 ->
  exists rs s',
    create_all env requests s = (inr rs, s') /\
    Forall2
      (fun r i =>
         four_digit_id (CustomerCreated.customer_id r) (111 + Z.of_nat i))
      rs (seq 0 (List.length requests)) /\
    Forall2
      (fun c i =>
         four_digit_id (MasterCustomerData.Customer_ID c)
           (111 + Z.of_nat i))
      (customers s') (seq 0 (List.length requests)) /\
    map MasterCustomerData.Name (customers s')
    = map PersonalDetailsRequest.name requests.
Proof.
  intros Hf Hempty Hw Hlen.
  assert (Hnum : numbered_from_111 0 s).
  { unfold numbered_from_111. rewrite Hempty. constructor. }
  destruct (create_all_numbered env requests 0 s Hf Hw Hnum ltac:(lia))
    as (rs & s' & Hrun & _ & Hnum' & Hrs & Hnames & _).
  exists rs, s'. rewrite Hempty in Hnames. cbn in Hnames, Hnum'.
  repeat split; assumption.
Qed.

Lemma creations_from_empty_store_are_consecutive_witness :
  fresh (Sample.store []) /\ writes_succeed Sample.env /\
  exists rs s',
    create_all Sample.env [Sample.details; Sample.details; Sample.details]
      (Sample.store [])
    = (inr rs, s') /\
    map CustomerCreated.customer_id rs
    = ["CUST0111"; "CUST0112"; "CUST0113"]%string.
Proof.
  split; [reflexivity |]. split; [repeat split |].
  destruct (creations_from_empty_store_are_consecutive Sample.env
              [Sample.details; Sample.details; Sample.details]
              (Sample.store []) eq_refl eq_refl
              (conj eq_refl (conj eq_refl eq_refl)))
    as (rs & s' & Hrun & _).
  { cbn. lia. }
  exists rs, s'. split; [exact Hrun |].
  vm_compute in Hrun. inversion Hrun. reflexivity.
Defined.

(** ** A created customer is found *)

Lemma four_digit_store_next s :
  four_digit_store s ->
  exists last,
    last_num (latest_customer s) = inr last /\
    forall c' n', In c' (customers s) ->
                  four_digit_id (MasterCustomerData.Customer_ID c') n' ->
                  n' < new_num last.
Proof.
  intros Hall. destruct (customers s) as [| c0 cs] eqn:Ecs.
  - exists None. split; [apply last_num_none; exact Ecs |].
    intros c' n' [].
  - destruct (latest_customer_four_digits s) as (c & n & _ & _ & _ & Hl & Hmax).
    + exact Hall.
    + rewrite Ecs. discriminate.
    + exists (Some n). split; [exact Hl |].
      intros c' n' Hin Hn'. rewrite <- Ecs in Hin.
      specialize (Hmax c' n' Hin Hn'). cbn. lia.
Qed.

Lemma allocate_next_id_suffix last :
  int_of_str (slice_from 4 (allocate_next_id last)) = inr (new_num last).
Proof.
  destruct (format_04d_nonneg (new_num last))
    as (ds & Hfmt & Hds & Hnum & Hlen & _).
  { pose proof (new_num_floor last). lia. }
  unfold allocate_next_id. rewrite Hfmt. cbn [append slice_from].
  rewrite <- Hnum. apply int_of_str_digits; [assumption |].
  intros ->. cbn in Hlen. lia.
Qed.

(** On a store of four-digit identifiers the allocated one is new. *)
Lemma allocated_id_is_new s last :
  four_digit_store s ->
  last_num (latest_customer s) = inr last ->
  ~ customer_exists (allocate_next_id last) s.
Proof.
  intros Hall Hl (c & Hin & Hid).
  destruct (four_digit_store_next s Hall) as (last' & Hl' & Hlt).
  assert (last' = last) by congruence. subst last'.
  destruct (Hall c Hin) as [n Hn].
  specialize (Hlt c n Hin Hn).
  apply four_digit_suffix in Hn. rewrite Hid, allocate_next_id_suffix in Hn.
  injection Hn as Hn. lia.
Qed.

Lemma first_filter_app_new {A} (p : A -> bool) l x :
  (forall y, In y l -> p y = false) -> p x = true ->
  first (filter p (l ++ [x])) = Some x.
Proof.
  intros Hnone Hx. rewrite filter_app.
  assert (E : filter p l = []).
  { destruct (filter p l) as [| y r] eqn:E; [reflexivity |].
    assert (Hy : In y (filter p l)) by (rewrite E; now left).
    apply filter_In in Hy as [Hy Hp]. rewrite (Hnone y Hy) in Hp.
    discriminate. }
  rewrite E. cbn. now rewrite Hx.
Qed.

(** X7.  A customer just created can be looked up.  On a store whose
    identifiers all have four digits and whose employment and loan rows
    all belong to stored customers, a creation whose writes succeed is
    followed by a summary, under the identifier it returned, that shows
    the submitted name, a monthly income of 0, no credit score and no
    loans. *)
Theorem created_customer_has_empty_summary env details s :
  fresh s -> writes_succeed env ->
  four_digit_store s -> rows_reference_customers s ->
  exists r s',
    create_personal_details env details s = (inr r, s') /\
    get_customer_summary (CustomerCreated.customer_id r) s'
    = (inr (Summary.mk (CustomerCreated.customer_id r)
              (PersonalDetailsRequest.name details) (Int 0) None []),
       s').
Proof.
  intros Hf (Ha & Hc & Hr) Hfour (Hemp & Hloan).
  destruct (four_digit_store_next s Hfour) as (last & Hl & _).
  pose proof (allocated_id_is_new s last Hfour Hl) as Hnew.
  pose proof (create_personal_details_run env details s Hf) as Hrun.
  rewrite Hl, Ha, Hc, Hr in Hrun. cbv zeta in Hrun.
  set (id := allocate_next_id last) in *.
  set (row := customer_row env details id) in *.
  eexists _, _. split; [exact Hrun |].
  cbn [CustomerCreated.customer_id].
  assert (Hfind : find_customer id (flush_row (CustomerRow row) s)
                  = Some row).
  { unfold find_customer. cbn [flush_row customers].
    apply first_filter_app_new.
    - intros c Hin. apply String.eqb_neq. intros Hid. apply Hnew.
      exists c. auto.
    - apply String.eqb_refl. }
  rewrite (get_customer_summary_found _ _ _ Hfind).
  assert (He : find_employment id (flush_row (CustomerRow row) s) = None).
  { apply find_employment_none. cbn [flush_row employment_rows].
    intros e Hin Hid. apply Hnew. rewrite <- Hid. now apply Hemp. }
  assert (Hq : query_loans id (flush_row (CustomerRow row) s) = []).
  { apply query_loans_nil. cbn [flush_row loan_rows].
    intros l Hin (Hid & _). apply Hnew. rewrite <- Hid. now apply Hloan. }
  assert (Hlatest : latest_loan id (flush_row (CustomerRow row) s) = None).
  { pose proof (latest_loan_spec id (flush_row (CustomerRow row) s)) as Hs.
    destruct (latest_loan id _) as [l |]; [exfalso | reflexivity].
    destruct Hs as (Hin & (Hid & _) & _). cbn [flush_row loan_rows] in Hin.
    apply Hnew. rewrite <- Hid. now apply Hloan. }
  rewrite He, Hq, Hlatest. reflexivity.
Qed.

Lemma created_customer_has_empty_summary_witness :
  fresh (Sample.store [Sample.customer "CUST0111"]) /\
  writes_succeed Sample.env /\
  four_digit_store (Sample.store [Sample.customer "CUST0111"]) /\
  rows_reference_customers (Sample.store [Sample.customer "CUST0111"]) /\
  exists r s',
    create_personal_details Sample.env Sample.details
      (Sample.store [Sample.customer "CUST0111"])
    = (inr r, s') /\
    CustomerCreated.customer_id r = "CUST0112"%string /\
    get_customer_summary "CUST0112" s'
    = (inr (Summary.mk "CUST0112" "Anita Rao" (Int 0) None []), s').
Proof.
  assert (Hfour : four_digit_store
                    (Sample.store [Sample.customer "CUST0111"])).
  { intros c [<- | []]. exists 111.
    exists (list_ascii_of_string "0111").
    repeat split; repeat constructor. }
  assert (Hrows : rows_reference_customers
                    (Sample.store [Sample.customer "CUST0111"])).
  { split; intros x []. }
  split; [reflexivity |]. split; [repeat split |].
  split; [exact Hfour |]. split; [exact Hrows |].
  destruct (created_customer_has_empty_summary Sample.env Sample.details
              (Sample.store [Sample.customer "CUST0111"]) eq_refl
              (conj eq_refl (conj eq_refl eq_refl)) Hfour Hrows)
    as (r & s' & Hrun & Hsum).
  assert (Hid : CustomerCreated.customer_id r = "CUST0112"%string).
  { vm_compute in Hrun. inversion Hrun. reflexivity. }
  exists r, s'. split; [exact Hrun |]. split; [exact Hid |].
  rewrite Hid in Hsum. exact Hsum.
Defined.

(** ** Records added to a customer and the summary *)

Lemma first_filter_split {A} (p : A -> bool) before x after :
  (forall y, In y before -> p y = false) -> p x = true ->
  first (filter p (before ++ x :: after)) = Some x.
Proof.
  intros Hnone Hx. rewrite filter_app.
  assert (E : filter p before = []).
  { destruct (filter p before) as [| y r] eqn:E; [reflexivity |].
    assert (Hy : In y (filter p before)) by (rewrite E; now left).
    apply filter_In in Hy as [Hy Hp]. rewrite (Hnone y Hy) in Hp.
    discriminate. }
  rewrite E. cbn. now rewrite Hx.
Qed.

(** X8.  The summary reports the income of the customer's first
    employment row in store order, so an employment record added to a
    customer who already has one does not change the summary: the new row
    is stored, and the income reported stays that of the first row. *)
Theorem added_employment_after_first_is_not_reported
  env customer_id details s before e0 after income :
  fresh s -> writes_succeed env -> customer_exists customer_id s ->
  employment_rows s = before ++ e0 :: after ->
  (forall e, In e before -> EmploymentInfo.Customer_ID e <> customer_id) ->
  EmploymentInfo.Customer_ID e0 = customer_id ->
  int_of_float (EmploymentDetailsRequest.monthly_income details)
  = inr income ->
  exists r s' sm,
    add_employment_details env customer_id details s = (inr r, s') /\
    employment_rows s'
    = employment_rows s ++ [employment_row customer_id details income] /\
    get_customer_summary customer_id s = (inr sm, s) /\
    get_customer_summary customer_id s' = (inr sm, s') /\
    Summary.monthly_income sm
    = Float (float_of_int (EmploymentInfo.Monthly_Income e0)).
Proof.
  intros Hf (Ha & Hc & Hr) Hex Hrows Hbefore He0 Hi.
  apply find_customer_exists in Hex as [c Hfind].
  pose proof (add_employment_details_run env customer_id details s Hf) as Hrun.
  rewrite Hfind, Hi, Ha, Hc, Hr in Hrun. cbv zeta in Hrun.
  set (row := employment_row customer_id details income) in *.
  assert (Hp0 : (EmploymentInfo.Customer_ID e0 =? customer_id)%string = true)
    by now apply String.eqb_eq.
  assert (Hpb : forall e, In e before ->
              (EmploymentInfo.Customer_ID e =? customer_id)%string = false).
  { intros e He. apply String.eqb_neq. now apply Hbefore. }
  assert (Hold : find_employment customer_id s = Some e0).
  { unfold find_employment. rewrite Hrows.
    now apply first_filter_split. }
  assert (Hnew : find_employment customer_id
                   (flush_row (EmploymentRow row) s) = Some e0).
  { unfold find_employment. cbn [flush_row employment_rows].
    rewrite Hrows, <- app_assoc. cbn [app].
    now apply first_filter_split. }
  eexists _, _, _. split; [exact Hrun |].
  split; [reflexivity |].
  split; [apply (get_customer_summary_found _ _ _ Hfind) |].
  split.
  - rewrite (get_customer_summary_found customer_id
               (flush_row (EmploymentRow row) s) c Hfind).
    rewrite Hnew, Hold. reflexivity.
  - cbn [Summary.monthly_income]. now rewrite Hold.
Qed.

Lemma query_loans_after_insert customer_id row s :
  query_loans customer_id (flush_row (LoanRow row) s)
  = query_loans customer_id s
    ++ (if (LoanInfo.Customer_ID row =? customer_id)%string
           && (LoanInfo.Loan_Required row =? "Yes")%string
           && (LoanInfo.Loan_Amount row >? 0)
        then [row] else []).
Proof.
  unfold query_loans. cbn [flush_row loan_rows]. rewrite filter_app.
  cbn [filter]. destruct (_ && _ && _)%bool; reflexivity.
Qed.

(** X9.  A loan added to a customer shows in the summary exactly when it
    was requested with ["Yes"] and its truncated amount is positive: it is
    then the last entry of [existing_loans], with the purpose ["Home"],
    the stored amount as a float, the status submitted, an EMI of 0 and a
    tenure of 0 years; otherwise [existing_loans] is unchanged.  Name and
    income of the summary are unchanged in both cases. *)
Theorem added_loan_is_listed_when_requested_and_positive
  env customer_id details s amount :
  fresh s -> writes_succeed env -> customer_exists customer_id s ->
  int_of_float (LoanApplicationRequest.loan_amount details) = inr amount ->
  exists r s' sm sm',
    add_loan_info env customer_id details s = (inr r, s') /\
    get_customer_summary customer_id s = (inr sm, s) /\
    get_customer_summary customer_id s' = (inr sm', s') /\
    Summary.name sm' = Summary.name sm /\
    Summary.monthly_income sm' = Summary.monthly_income sm /\
    (LoanApplicationRequest.loan_required details = "Yes"%string ->
     0 < amount ->
     Summary.existing_loans sm'
     = Summary.existing_loans sm
       ++ [new_loan_entry amount
             (LoanApplicationRequest.loan_status details)]) /\
    (LoanApplicationRequest.loan_required details <> "Yes"%string
     \/ amount <= 0 ->
     Summary.existing_loans sm' = Summary.existing_loans sm).
Proof.
  intros Hf (Ha & Hc & Hr) Hex Hi.
  apply find_customer_exists in Hex as [c Hfind].
  pose proof (add_loan_info_run env customer_id details s Hf) as Hrun.
  rewrite Hfind, Hi, Ha, Hc, Hr in Hrun. cbv zeta in Hrun.
  set (row := loan_row env customer_id details amount) in *.
  eexists _, _, _, _. split; [exact Hrun |].
  split; [apply (get_customer_summary_found _ _ _ Hfind) |].
  split; [apply (get_customer_summary_found customer_id
                   (flush_row (LoanRow row) s) c Hfind) |].
  cbn [Summary.name Summary.monthly_income Summary.existing_loans].
  split; [reflexivity |]. split; [reflexivity |].
  assert (Hq : query_loans customer_id (flush_row (LoanRow row) s)
               = query_loans customer_id s
                 ++ (if (LoanApplicationRequest.loan_required details
                         =? "Yes")%string
                        && (amount >? 0)
                     then [row] else [])).
  { rewrite query_loans_after_insert. unfold row.
    cbn [loan_row LoanInfo.Customer_ID LoanInfo.Loan_Required
           LoanInfo.Loan_Amount].
    now rewrite String.eqb_refl. }
  rewrite Hq.
  split.
  - intros Hyes Hpos. rewrite Hyes. cbn [String.eqb Ascii.eqb Bool.eqb andb].
    assert (Hgt : (amount >? 0) = true) by (apply Z.gtb_lt; lia).
    rewrite Hgt, map_app. reflexivity.
  - intros [Hno | Hle].
    + apply String.eqb_neq in Hno. rewrite Hno. cbn [andb].
      now rewrite app_nil_r.
    + assert (Hgt : (amount >? 0) = false).
      { destruct (amount >? 0) eqn:E; [| reflexivity].
        apply Z.gtb_lt in E. lia. }
      rewrite Hgt, andb_false_r. now rewrite app_nil_r.
Qed.

(** X10.  The credit score comes from the latest requested application,
    and a row added by [add_loan_info] carries none: once a requested
    loan is added with an application date after those of all the
    customer's requested loans (the default date being today), the
    summary reports a null credit score, whatever scores the earlier rows
    hold. *)
Theorem later_application_hides_credit_score
  env customer_id details s amount :
  fresh s -> writes_succeed env -> customer_exists customer_id s ->
  int_of_float (LoanApplicationRequest.loan_amount details) = inr amount ->
  LoanApplicationRequest.loan_required details = "Yes"%string ->
  (forall l, In l (loan_rows s) -> loan_requested customer_id l ->
             date_leb
               (LoanInfo.Application_Date
                  (loan_row env customer_id details amount))
               (LoanInfo.Application_Date l) = false) ->
  exists r s' sm',
    add_loan_info env customer_id details s = (inr r, s') /\
    loan_rows s' = loan_rows s ++ [loan_row env customer_id details amount] /\
    get_customer_summary customer_id s' = (inr sm', s') /\
    Summary.credit_score sm' = None.
Proof.
  intros Hf (Ha & Hc & Hr) Hex Hi Hyes Hlater.
  apply find_customer_exists in Hex as [c Hfind].
  pose proof (add_loan_info_run env customer_id details s Hf) as Hrun.
  rewrite Hfind, Hi, Ha, Hc, Hr in Hrun. cbv zeta in Hrun.
  set (row := loan_row env customer_id details amount) in *.
  eexists _, _, _. split; [exact Hrun |].
  split; [reflexivity |].
  split; [apply (get_customer_summary_found customer_id
                   (flush_row (LoanRow row) s) c Hfind) |].
  cbn [Summary.credit_score].
  pose proof (latest_loan_spec customer_id (flush_row (LoanRow row) s)) as Hs.
  destruct (latest_loan customer_id _) as [l |]; [| reflexivity].
  destruct Hs as (Hin & Hreq & Hmax). cbn [flush_row loan_rows] in Hin, Hmax.
  apply in_app_iff in Hin as [Hold | [<- | []]]; [exfalso | reflexivity].
  assert (Hrow : date_leb (LoanInfo.Application_Date row)
                          (LoanInfo.Application_Date l) = true).
  { apply Hmax.
    - apply in_app_iff. right. now left.
    - split; [reflexivity | exact Hyes]. }
  rewrite (Hlater l Hold Hreq) in Hrow. discriminate.
Qed.

Lemma added_employment_after_first_is_not_reported_witness :
  fresh Demo.employed_store /\ writes_succeed Sample.env /\
  customer_exists "CUST0111" Demo.employed_store /\
  exists r s' sm,
    add_employment_details Sample.env "CUST0111" Demo.second_job
      Demo.employed_store
    = (inr r, s') /\
    List.length (employment_rows s') = 2%nat /\
    get_customer_summary "CUST0111" s' = (inr sm, s') /\
    Summary.monthly_income sm = Float (float_of_int 40000).
Proof.
  assert (Hex : customer_exists "CUST0111" Demo.employed_store).
  { eexists. split; [now left | reflexivity]. }
  split; [reflexivity |]. split; [repeat split |]. split; [exact Hex |].
  destruct (added_employment_after_first_is_not_reported Sample.env
              "CUST0111"%string Demo.second_job Demo.employed_store
              [] (EmploymentInfo.mk "CUST0111" "Clerk" 40000 "Active"
                    "Pending") [] 50000
              eq_refl (conj eq_refl (conj eq_refl eq_refl)) Hex eq_refl
              (fun e (H : In e []) => match H with end) eq_refl eq_refl)
    as (r & s' & sm & Hrun & Hrows & _ & Hsum & Hinc).
  exists r, s', sm. split; [exact Hrun |].
  split; [rewrite Hrows; reflexivity |].
  split; [exact Hsum | exact Hinc].
Defined.

Lemma added_loan_is_listed_when_requested_and_positive_witness :
  fresh Sample.loans_store /\ writes_succeed Sample.env /\
  customer_exists "CUST0111" Sample.loans_store /\
  exists r s' sm',
    add_loan_info Sample.env "CUST0111" Demo.application Sample.loans_store
    = (inr r, s') /\
    get_customer_summary "CUST0111" s' = (inr sm', s') /\
    map ExistingLoan.tenure_years (Summary.existing_loans sm') = [1; 0] /\
    map ExistingLoan.status (Summary.existing_loans sm')
    = ["PENDING"; "PENDING"]%string.
Proof.
  assert (Hex : customer_exists "CUST0111" Sample.loans_store).
  { eexists. split; [now left | reflexivity]. }
  split; [reflexivity |]. split; [repeat split |]. split; [exact Hex |].
  destruct (added_loan_is_listed_when_requested_and_positive Sample.env
              "CUST0111"%string Demo.application Sample.loans_store 200000
              eq_refl (conj eq_refl (conj eq_refl eq_refl)) Hex eq_refl)
    as (r & s' & sm & sm' & Hrun & Hold & Hnew & _ & _ & Hlisted & _).
  exists r, s', sm'. split; [exact Hrun |]. split; [exact Hnew |].
  rewrite (Hlisted eq_refl eq_refl).
  vm_compute in Hold. inversion Hold. split; reflexivity.
Defined.

Lemma later_application_hides_credit_score_witness :
  fresh Sample.loans_store /\ writes_succeed Sample.env /\
  customer_exists "CUST0111" Sample.loans_store /\
  (exists sm,
     get_customer_summary "CUST0111" Sample.loans_store
     = (inr sm, Sample.loans_store) /\
     Summary.credit_score sm = Some 710) /\
  exists r s' sm',
    add_loan_info Sample.env "CUST0111" Demo.application Sample.loans_store
    = (inr r, s') /\
    get_customer_summary "CUST0111" s' = (inr sm', s') /\
    Summary.credit_score sm' = None.
Proof.
  assert (Hex : customer_exists "CUST0111" Sample.loans_store).
  { eexists. split; [now left | reflexivity]. }
  split; [reflexivity |]. split; [repeat split |]. split; [exact Hex |].
  split; [eexists; split; reflexivity |].
  destruct (later_application_hides_credit_score Sample.env
              "CUST0111"%string Demo.application Sample.loans_store 200000
              eq_refl (conj eq_refl (conj eq_refl eq_refl)) Hex eq_refl
              eq_refl)
    as (r & s' & sm' & Hrun & _ & Hsum & Hscore).
  { intros l [<- | [<- | [<- | [<- | []]]]] _; reflexivity. }
  exists r, s', sm'. split; [exact Hrun |]. split; assumption.
Defined.

(** ** Amounts in the summary *)

(** X11.  The summary reports stored amounts without loss: for a stored
    customer, every listed loan carries the purpose and status of its row
    and, when the amount is below [2^53] in magnitude, a float denoting
    exactly the stored amount; an EMI other than 0 is reported the same
    way, and an EMI of 0 as the integer 0, like a missing one.  The income
    is the integer 0 without an employment row, and otherwise the float
    denoting exactly the income of the customer's first row. *)
Theorem summary_reports_stored_amounts_exactly customer_id s :
  customer_exists customer_id s ->
  exists r,
    get_customer_summary customer_id s = (inr r, s) /\
    Forall2
      (fun loan entry =>
         ExistingLoan.type entry = LoanInfo.Loan_Purpose loan /\
         ExistingLoan.status entry = LoanInfo.Loan_Status loan /\
         (Z.abs (LoanInfo.Loan_Amount loan) < 2 ^ 53 ->
          (value (ExistingLoan.amount entry)
           == inject_Z (LoanInfo.Loan_Amount loan))%Q) /\
         (forall emi,
            LoanInfo.EMI loan = Some emi -> emi <> 0 ->
            Z.abs emi < 2 ^ 53 ->
            exists f, ExistingLoan.monthly_emi entry = Float f /\
                      (value f == inject_Z emi)%Q) /\
         (LoanInfo.EMI loan = Some 0 ->
          ExistingLoan.monthly_emi entry = Int 0))
      (query_loans customer_id s) (Summary.existing_loans r) /\
    ((forall e, In e (employment_rows s) ->
                EmploymentInfo.Customer_ID e <> customer_id) ->
     Summary.monthly_income r = Int 0) /\
    (forall before e0 after,
       employment_rows s = before ++ e0 :: after ->
       (forall e, In e before ->
                  EmploymentInfo.Customer_ID e <> customer_id) ->
       EmploymentInfo.Customer_ID e0 = customer_id ->
       Z.abs (EmploymentInfo.Monthly_Income e0) < 2 ^ 53 ->
       exists f, Summary.monthly_income r = Float f /\
                 (value f == inject_Z (EmploymentInfo.Monthly_Income e0))%Q).
Proof.
  intros Hex. apply find_customer_exists in Hex as [c Hc].
  eexists. split; [apply (get_customer_summary_found _ _ _ Hc) |].
  cbn [Summary.existing_loans Summary.monthly_income].
  split; [| split].
  - induction (query_loans customer_id s) as [| loan loans IH]; cbn [map];
      constructor; [| exact IH].
    unfold format_loan.
    cbn [ExistingLoan.type ExistingLoan.status ExistingLoan.amount
           ExistingLoan.monthly_emi].
    split; [reflexivity |]. split; [reflexivity |].
    split; [apply float_of_int_exact |].
    split.
    + intros emi -> Hne Hsmall. cbn [truthy].
      destruct (Z.eqb_spec emi 0) as [? | _]; [contradiction |].
      cbn [negb]. eexists. split; [reflexivity |].
      now apply float_of_int_exact.
    + intros ->. reflexivity.
  - intros Hnone. apply find_employment_none in Hnone. now rewrite Hnone.
  - intros before e0 after Hrows Hbefore He0 Hsmall.
    assert (Hfirst : find_employment customer_id s = Some e0).
    { unfold find_employment. rewrite Hrows. apply first_filter_split.
      - intros e He. apply String.eqb_neq. now apply Hbefore.
      - now apply String.eqb_eq. }
    rewrite Hfirst. eexists. split; [reflexivity |].
    now apply float_of_int_exact.
Qed.

Lemma summary_reports_stored_amounts_exactly_witness :
  customer_exists "CUST0111" Demo.employed_store /\
  exists r f,
    get_customer_summary "CUST0111" Demo.employed_store
    = (inr r, Demo.employed_store) /\
    Summary.monthly_income r = Float f /\
    (value f == inject_Z 40000)%Q.
Proof.
  assert (Hex : customer_exists "CUST0111" Demo.employed_store).
  { eexists. split; [now left | reflexivity]. }
  split; [exact Hex |].
  destruct (summary_reports_stored_amounts_exactly "CUST0111"%string
              Demo.employed_store Hex)
    as (r & Hrun & _ & _ & Hinc).
  destruct (Hinc [] (EmploymentInfo.mk "CUST0111" "Clerk" 40000 "Active"
                       "Pending") []
              eq_refl (fun e (H : In e []) => match H with end) eq_refl)
    as (f & Hf & Hv).
  { cbn. lia. }
  exists r, f. auto.
Defined.

(** ** The answer of a creation *)

Lemma lstrip_nonspace_head c l :
  is_space c = false -> lstrip (c :: l) = c :: l.
Proof. intros H. cbn. now rewrite H. Qed.

(** [int(str(n)) = n] for every integer. *)
Lemma int_of_str_of_int n : int_of_str (str_of_int n) = inr n.
Proof.
  unfold str_of_int, format_0d. cbn [Nat.sub repeat app].
  destruct (dec_digits_spec (Z.abs n) (Z.abs_nonneg n))
    as (Hall & Hnum & Hlen & _).
  destruct (Z.ltb_spec n 0) as [Hneg | Hpos]; cbn [app].
  - unfold int_of_str. rewrite list_ascii_of_string_of_list_ascii.
    assert (Hs : strip ("-"%char :: dec_digits (Z.abs n))
                 = "-"%char :: dec_digits (Z.abs n)).
    { unfold strip. rewrite lstrip_nonspace_head by reflexivity.
      cbn [rev].
      destruct (rev (dec_digits (Z.abs n))) as [| d r] eqn:E.
      - exfalso. apply (f_equal (@List.length ascii)) in E.
        rewrite length_rev in E.
        change (@List.length ascii []) with 0%nat in E. lia.
      - assert (Hd : is_digit d = true).
        { rewrite Forall_forall in Hall. apply Hall. apply in_rev.
          rewrite E. now left. }
        cbn [app]. rewrite lstrip_nonspace_head
          by now apply is_digit_not_space.
        change (d :: r ++ ["-"%char]) with ((d :: r) ++ ["-"%char]).
        rewrite <- E, rev_app_distr, rev_involutive. reflexivity. }
    rewrite Hs. change ("-" =? "-")%char with true. cbv iota.
    rewrite (digits_value_digits _ Hall 0 true).
    + change (fold_left _ _ 0) with (digits_num (dec_digits (Z.abs n))).
      rewrite Hnum. cbn [option_map]. f_equal. lia.
    + left. intros E. rewrite E in Hlen. cbn in Hlen. lia.
  - rewrite int_of_str_digits; [| exact Hall |].
    + rewrite Hnum. f_equal. lia.
    + intros E. rewrite E in Hlen. cbn in Hlen. lia.
Qed.

(** X12.  The answer of a successful creation can be read back: on a
    store whose identifiers are made of ASCII characters, its mobile
    number is a string that [int()] turns into the number submitted,
    whatever that number is, its name, e-mail address and enrollment
    date are those of the request and of the day, and the suffix of its
    identifier reads as the number allocated. *)
Theorem creation_answer_reads_back env details s last :
  fresh s -> writes_succeed env -> ascii_identifiers s ->
  last_num (latest_customer s) = inr last ->
  exists r s',
    create_personal_details env details s = (inr r, s') /\
    int_of_str (CustomerCreated.mobile r)
    = inr (PersonalDetailsRequest.mobile details) /\
    CustomerCreated.name r = PersonalDetailsRequest.name details /\
    CustomerCreated.email r = PersonalDetailsRequest.email details /\
    CustomerCreated.customer_since r = isoformat (today env) /\
    int_of_str (slice_from 4 (CustomerCreated.customer_id r))
    = inr (new_num last).
Proof.
  intros Hf (Ha & Hc & Hr) _ Hl.
  pose proof (create_personal_details_run env details s Hf) as Hrun.
  rewrite Hl, Ha, Hc, Hr in Hrun. cbv zeta in Hrun.
  eexists _, _. split; [exact Hrun |].
  cbn [CustomerCreated.mobile CustomerCreated.name CustomerCreated.email
         CustomerCreated.customer_since CustomerCreated.customer_id].
  split; [apply int_of_str_of_int |].
  repeat split. apply allocate_next_id_suffix.
Qed.

Lemma creation_answer_reads_back_witness :
  let s := Sample.store [Sample.customer "CUST0150"] in
  fresh s /\ writes_succeed Sample.env /\ ascii_identifiers s /\
  last_num (latest_customer s) = inr (Some 150) /\
  exists r s',
    create_personal_details Sample.env Sample.details s = (inr r, s') /\
    int_of_str (CustomerCreated.mobile r) = inr 9123456780 /\
    int_of_str (slice_from 4 (CustomerCreated.customer_id r)) = inr 151.
Proof.
  intros s.
  assert (Hascii : ascii_identifiers s).
  { intros c [<- | []]. reflexivity. }
  split; [reflexivity |]. split; [repeat split |].
  split; [exact Hascii |]. split; [reflexivity |].
  destruct (creation_answer_reads_back Sample.env Sample.details
              s (Some 150) eq_refl
              (conj eq_refl (conj eq_refl eq_refl)) Hascii eq_refl)
    as (r & s' & Hrun & Hmobile & _ & _ & _ & Hid).
  exists r, s'. split; [exact Hrun |]. split; [exact Hmobile | exact Hid].
Defined.

(** ** The amount echoed by a creation *)

Lemma iter_pos_is_iter {A} (f : A -> A) n : forall x,
  iter_pos f n x = Pos.iter f x n.
Proof.
  induction n as [n IH | n IH |]; intros x; cbn [iter_pos Pos.iter].
  - rewrite !IH, !Pos.iter_swap. reflexivity.
  - rewrite !IH. reflexivity.
  - reflexivity.
Qed.

(** Shifting out [k] zero bits loses nothing. *)
Lemma shr_exact k : forall m,
  iter_pos shr_1 k (Build_shr_record (Zpos (Pos.iter xO m k)) false false)
  = Build_shr_record (Zpos m) false false.
Proof.
  induction k as [| k IH] using Pos.peano_ind; intros m.
  - reflexivity.
  - rewrite iter_pos_is_iter, Pos.iter_succ, Pos.iter_succ_r.
    rewrite <- iter_pos_is_iter, IH. reflexivity.
Qed.

(** A 53-bit mantissa shifted left by [k] rounds to itself. *)
Lemma binary_round_shifted sx m k :
  Zpos (digits2_pos m) = 53 -> Zpos k <= 971 ->
  binary_round prec emax sx (Pos.iter xO m k) 0 = S754_finite sx m (Zpos k).
Proof.
  intros Hd Hk. unfold binary_round.
  rewrite digits2_pos_iter_xO.
  assert (Hf : fexp prec emax (Zpos (digits2_pos m + k) + 0) = Zpos k).
  { unfold fexp, SpecFloat.emin, prec, emax. lia. }
  rewrite Hf. unfold shl_align. cbn [Z.sub Z.opp Z.add].
  unfold binary_round_aux, shr_fexp. cbn [Zdigits2 shr_record_of_loc].
  rewrite digits2_pos_iter_xO, Hf. cbn [Z.sub Z.opp Z.add shr].
  rewrite shr_exact.
  cbn [shr_m loc_of_shr_record round_nearest_even Zdigits2 shr_record_of_loc].
  assert (Hf0 : fexp prec emax (Zpos (digits2_pos m) + Zpos k) - Zpos k = 0).
  { unfold fexp, SpecFloat.emin, prec, emax. lia. }
  rewrite Hf0. cbn [shr shr_m].
  unfold emax, prec.
  destruct (Z.leb_spec (Zpos k) (1024 - 53)); [reflexivity | lia].
Qed.

Lemma float_of_int_small_finite n :
  Z.abs n < 2 ^ 53 -> is_finite (float_of_int n) = true.
Proof.
  intros Hn. unfold float_of_int, binary_normalize.
  destruct n as [| p | p]; [reflexivity | |].
  - destruct (binary_round_small false p Hn) as (m & e & -> & _).
    reflexivity.
  - destruct (binary_round_small true p Hn) as (m & e & -> & _).
    reflexivity.
Qed.

(** [float(int(x))] of a finite binary64 [x] is finite and denotes
    [int(x)] exactly. *)
Lemma float_of_int_of_float x n :
  is_float x -> int_of_float x = inr n ->
  is_finite (float_of_int n) = true /\
  (value (float_of_int n) == inject_Z n)%Q.
Proof.
  intros Hv Hn.
  destruct x as [sx | sx | | sx m e]; cbn [int_of_float] in Hn;
    inversion Hn; subst; clear Hn.
  - split; reflexivity.
  - pose proof (is_float_mantissa _ _ _ Hv) as Hm.
    destruct e as [| k | k].
    + rewrite Z.shiftl_0_r.
      assert (Hs : Z.abs (if sx then - Zpos m else Zpos m) < 2 ^ 53)
        by (destruct sx; cbn; lia).
      split; [now apply float_of_int_small_finite
             | now apply float_of_int_exact].
    + assert (Hsh : Z.shiftl (Zpos m) (Zpos k) = Zpos (Pos.iter xO m k)).
      { rewrite Z.shiftl_mul_pow2 by lia. now rewrite iter_xO_pow. }
      unfold is_float, valid_binary, bounded, canonical_mantissa in Hv.
      apply andb_true_iff in Hv as [Hc Hb].
      apply Z.eqb_eq in Hc. apply Z.leb_le in Hb.
      assert (Hd : Zpos (digits2_pos m) = 53).
      { unfold fexp, SpecFloat.emin, prec, emax in Hc. lia. }
      assert (Hk : Zpos k <= 971) by (unfold prec, emax in Hb; lia).
      assert (Hshn : Z.shiftl (Zneg m) (Zpos k) = Zneg (Pos.iter xO m k)).
      { rewrite Z.shiftl_mul_pow2 by lia.
        change (Zneg m) with (- Zpos m).
        rewrite Z.mul_opp_l, <- iter_xO_pow. reflexivity. }
      rewrite Hsh. unfold float_of_int, binary_normalize.
      destruct sx; cbn [Z.opp];
        rewrite (binary_round_shifted _ m k Hd Hk);
        (split; [reflexivity |]); unfold value.
      * rewrite Hshn. reflexivity.
      * rewrite Hsh. reflexivity.
    + rewrite Z.shiftr_div_pow2 by lia.
      pose proof (Z.pow_pos_nonneg 2 (Zpos k) ltac:(lia) ltac:(lia)) as Hpow.
      assert (Hq : 0 <= Zpos m / 2 ^ Zpos k) by (apply Z.div_pos; lia).
      assert (Hle : Zpos m / 2 ^ Zpos k <= Zpos m).
      { apply Z.div_le_upper_bound; nia. }
      assert (Hs : Z.abs (if sx then - (Zpos m / 2 ^ Zpos k)
                          else Zpos m / 2 ^ Zpos k) < 2 ^ 53).
      { destruct sx; [rewrite Z.abs_opp |]; rewrite Z.abs_eq; lia. }
      split; [now apply float_of_int_small_finite
             | now apply float_of_int_exact].
Qed.

(** X13.  The amount a creation endpoint echoes is exact for every
    finite amount, of whatever size: when the customer is stored and the
    writes succeed, the row holds the submitted binary64 truncated toward
    zero, and the float in the answer is finite and denotes exactly the
    stored integer, with no rounding and no overflow. *)
Theorem echoed_amount_is_exact env customer_id s :
  fresh s -> customer_exists customer_id s -> writes_succeed env ->
  (forall details income,
     is_float (EmploymentDetailsRequest.monthly_income details) ->
     int_of_float (EmploymentDetailsRequest.monthly_income details)
     = inr income ->
     exists r s',
       add_employment_details env customer_id details s = (inr r, s') /\
       employment_rows s'
       = employment_rows s ++ [employment_row customer_id details income] /\
       truncation_of
         (value (EmploymentDetailsRequest.monthly_income details)) income /\
       is_finite (EmploymentAdded.monthly_income r) = true /\
       (value (EmploymentAdded.monthly_income r) == inject_Z income)%Q) /\
  (forall details amount,
     is_float (LoanApplicationRequest.loan_amount details) ->
     int_of_float (LoanApplicationRequest.loan_amount details)
     = inr amount ->
     exists r s',
       add_loan_info env customer_id details s = (inr r, s') /\
       loan_rows s'
       = loan_rows s ++ [loan_row env customer_id details amount] /\
       truncation_of
         (value (LoanApplicationRequest.loan_amount details)) amount /\
       is_finite (LoanAdded.loan_amount r) = true /\
       (value (LoanAdded.loan_amount r) == inject_Z amount)%Q).
Proof.
  intros Hf Hex (Ha & Hc & Hr).
  apply find_customer_exists in Hex as [c Hfind].
  split.
  - intros details income Hv Hi.
    destruct (float_of_int_of_float _ _ Hv Hi) as [Hfin Hval].
    pose proof (add_employment_details_run env customer_id details s Hf)
      as Hrun.
    rewrite Hfind, Hi, Ha, Hc, Hr in Hrun. cbv zeta in Hrun.
    eexists _, _. split; [exact Hrun |].
    split; [reflexivity |].
    split; [exact (int_of_float_truncates _ _ Hi) |].
    split; [exact Hfin | exact Hval].
  - intros details amount Hv Hi.
    destruct (float_of_int_of_float _ _ Hv Hi) as [Hfin Hval].
    pose proof (add_loan_info_run env customer_id details s Hf) as Hrun.
    rewrite Hfind, Hi, Ha, Hc, Hr in Hrun. cbv zeta in Hrun.
    eexists _, _. split; [exact Hrun |].
    split; [reflexivity |].
    split; [exact (int_of_float_truncates _ _ Hi) |].
    split; [exact Hfin | exact Hval].
Qed.

Lemma echoed_amount_is_exact_witness :
  fresh (Sample.store [Sample.customer "CUST0111"]) /\
  customer_exists "CUST0111" (Sample.store [Sample.customer "CUST0111"]) /\
  writes_succeed Sample.env /\
  is_float Demo.two_to_the_sixty /\
  exists r s',
    add_loan_info Sample.env "CUST0111"
      (LoanApplicationRequest.with_defaults Demo.two_to_the_sixty)
      (Sample.store [Sample.customer "CUST0111"])
    = (inr r, s') /\
    map LoanInfo.Loan_Amount (loan_rows s') = [2 ^ 60] /\
    (value (LoanAdded.loan_amount r) == inject_Z (2 ^ 60))%Q.
Proof.
  split; [reflexivity |].
  split; [exact sample_store_customer_exists |].
  split; [repeat split |]. split; [reflexivity |].
  destruct (proj2 (echoed_amount_is_exact Sample.env "CUST0111"%string
                     (Sample.store [Sample.customer "CUST0111"])
                     eq_refl sample_store_customer_exists
                     (conj eq_refl (conj eq_refl eq_refl)))
              (LoanApplicationRequest.with_defaults Demo.two_to_the_sixty)
              (2 ^ 60) eq_refl eq_refl)
    as (r & s' & Hrun & Hrows & _ & _ & Hecho).
  exists r, s'. split; [exact Hrun |].
  split; [rewrite Hrows; reflexivity | exact Hecho].
Defined.
